(** * Crypto volatility and risk analyser: a model of [app.py]

    The development embeds the snapshot fetcher ([fetch_crypto_data]), the
    history file it appends to, and the three derived views ([chart],
    [btc_history], [ppt]) as functions over an explicit state, and proves
    the properties of the specification about them.

    Conventions of the embedding.
    - Python values decoded from JSON are the type [pyval]; [int] and
      [float] are kept apart.  A [float] is the rational value of a finite
      double; [binary64] gives the double nearest to a rational, and
      [round] is computed on the value of the double.  Infinities, NaN
      and the sign of zero are not represented in [pyval].  The
      statistics of the chart are computed in exact arithmetic.
    - An exception is the [Raise] case of [result]; the bare [except:] of
      the source is the [None] case of [request_json].
    - The process state is the record [state]: the module-level list
      [last_snapshot] and the file named by [CSV_FILE].
    - The wall clock, the upstream provider and the outcome of the write
      to the file are inputs of each call.
    - Strings are byte strings (UTF-8).
    - The history file is a list of lines, a header or the line written
      for one row.  What pandas reads back from the lines is a frame of
      typed cells ([cell]); the typing is the library's.
    - What Python and pandas do and the source does not spell out is the
      class [library]: upper-casing beyond ASCII, the types [read_csv]
      infers, the order [sort_values] gives to rows of equal time, the
      rolling statistic after a missing price or a division by zero,
      the date of a timestamp that is not an [int], and the answers on
      tables and columns of another shape.  The facts assumed of the
      library are the fields of [lawful].
    - The plot and the slide deck are the data they are drawn from. *)

From Stdlib Require Import ZArith QArith Qround Qreals Qabs Qpower Reals.
From Stdlib Require Import String Ascii List Bool Lia Lqa OrderedTypeEx.
From Stdlib Require Import Sorted Permutation.
Import ListNotations.

Set Implicit Arguments.
Set Warnings "-register-all".
Local Open Scope string_scope.
Local Open Scope Z_scope.

(** ** Exceptions and results *)

Inductive exn : Type :=
| AttributeError
| TypeError
| KeyError
| IndexError
| ValueError
| EmptyDataError
| OutOfBoundsDatetime
| OSError
| UnicodeEncodeError.

Inductive result (A : Type) : Type :=
| Return (a : A)
| Raise (e : exn).

Arguments Return {A} a.
Arguments Raise {A} e.

Definition bind {A B : Type} (m : result A) (k : A -> result B) : result B :=
  match m with
  | Return a => k a
  | Raise e => Raise e
  end.

Notation "x <- m ;; k" := (bind m (fun x => k))
  (at level 61, m at next level, right associativity).

Fixpoint mapM {A B : Type} (f : A -> result B) (l : list A) : result (list B) :=
  match l with
  | [] => Return []
  | a :: l' => b <- f a ;; bs <- mapM f l' ;; Return (b :: bs)
  end.

(** What a route answers. *)
Inductive outcome (A : Type) : Type :=
| Served (a : A)                    (* status 200 and a body *)
| NotFound (message : string)       (* status 404 *)
| Failed (e : exn).                 (* an uncaught exception *)

Arguments Served {A} a.
Arguments NotFound {A} message.
Arguments Failed {A} e.

(** ** Python values

    A decoded JSON document.  A dictionary is the list of its items; a key
    is looked up at its first item. *)

Inductive pyval : Type :=
| PyNone
| PyBool (b : bool)
| PyInt (z : Z)
| PyFloat (q : Q)
| PyStr (s : string)
| PyList (l : list pyval)
| PyDict (items : list (string * pyval)).

(** [d.get(key, default)] *)
Fixpoint dict_get (items : list (string * pyval)) (key : string) (default : pyval)
  : pyval :=
  match items with
  | [] => default
  | (k, v) :: rest => if String.eqb k key then v else dict_get rest key default
  end.

(** Truth value of a Python object, as [or], [if] and [not] test it. *)
Definition truthy (v : pyval) : bool :=
  match v with
  | PyNone => false
  | PyBool b => b
  | PyInt z => negb (z =? 0)
  | PyFloat q => negb (Qnum q =? 0)
  | PyStr s => negb (String.eqb s "")
  | PyList l => match l with [] => false | _ => true end
  | PyDict d => match d with [] => false | _ => true end
  end.

(** [a or b] *)
Definition py_or (a b : pyval) : pyval := if truthy a then a else b.

(** [for x in v]: the items a [for] loop visits, or [TypeError] when the
    object is not iterable.  A dictionary yields its keys, a string its
    characters. *)
Fixpoint chars (s : string) : list pyval :=
  match s with
  | EmptyString => []
  | String c s' => PyStr (String c EmptyString) :: chars s'
  end.

Definition py_iter (v : pyval) : result (list pyval) :=
  match v with
  | PyList l => Return l
  | PyDict d => Return (map (fun kv => PyStr (fst kv)) d)
  | PyStr s => Return (chars s)
  | _ => Raise TypeError
  end.

(** ** Floats

    A finite double is a rational [m * 2^e] with a mantissa [m] of at
    most 53 bits and [e >= -1074]. *)

(** The nearest integer, a tie going to the even one. *)
Definition round_half_even (q : Q) : Z :=
  let f := Qfloor q in
  match (q - inject_Z f ?= 1 # 2)%Q with
  | Lt => f
  | Gt => f + 1
  | Eq => if Z.even f then f else f + 1
  end.

(** [2^e] for an exponent of either sign. *)
Definition pow2 (e : Z) : Q := (2 ^ e)%Q.

(** The exponent of the leading bit of a non-zero rational:
    [2^(ilog2 q) <= |q| < 2^(ilog2 q + 1)]. *)
Definition ilog2 (q : Q) : Z :=
  let k := Z.log2 (Z.abs (Qnum q)) - Z.log2 (Zpos (Qden q)) in
  if Qle_bool (pow2 k) (Qabs q) then k else k - 1.

(** The exponent of the last place of the double nearest to [q]: 52 bits
    below the leading one, and never below the subnormal exponent. *)
Definition ulp_exponent (q : Q) : Z := Z.max (ilog2 q - 52) (-1074).

(** The double nearest to a rational, a tie going to the even mantissa
    (the rounding of [float(...)], of the JSON decoder and of every
    arithmetic operation).  Overflow to infinity is not modelled. *)
Definition binary64 (q : Q) : Q :=
  if Qnum q =? 0 then 0%Q
  else Qred (inject_Z (round_half_even (q / pow2 (ulp_exponent q))) * pow2 (ulp_exponent q)).


(** ** Strings *)

Definition is_lower (c : ascii) : bool :=
  let n := N_of_ascii c in (97 <=? n)%N && (n <=? 122)%N.

Definition upper_char (c : ascii) : ascii :=
  if is_lower c then ascii_of_N (N_of_ascii c - 32) else c.

(** [s.upper()] on ASCII text: the letters a to z are raised, every other
    character is kept. *)
Fixpoint upper (s : string) : string :=
  match s with
  | EmptyString => EmptyString
  | String c s' => String (upper_char c) (upper s')
  end.

(** The string holds ASCII characters only. *)
Fixpoint is_ascii (s : string) : bool :=
  match s with
  | EmptyString => true
  | String c s' => (N_of_ascii c <? 128)%N && is_ascii s'
  end.

(** Two characters that differ at most by the case of a letter. *)
Definition same_letter (a b : ascii) : bool :=
  Ascii.eqb a b
  || (is_lower a && Ascii.eqb (upper_char a) b)
  || (is_lower b && Ascii.eqb a (upper_char b)).

(** Equality of strings up to the case of their letters. *)
Fixpoint eq_nocase (s t : string) : bool :=
  match s, t with
  | EmptyString, EmptyString => true
  | String a s', String b t' => same_letter a b && eq_nocase s' t'
  | _, _ => false
  end.

(** ** Wall-clock time

    [datetime.now()] is a naive local date and time; the source keeps it
    to the second. *)

Record datetime : Type := mkDatetime {
  year : Z; month : Z; day : Z; hour : Z; minute : Z; second : Z
}.

Definition digit_char (d : Z) : ascii := ascii_of_N (Z.to_N (48 + d mod 10)).

Definition pad2 (n : Z) (rest : string) : string :=
  String (digit_char (n / 10)) (String (digit_char n) rest).

Definition pad4 (n : Z) (rest : string) : string :=
  String (digit_char (n / 1000)) (String (digit_char (n / 100)) (pad2 n rest)).

(** [dt.strftime("%Y-%m-%d")], the year written on four digits. *)
Definition strftime_date (y m d : Z) : string :=
  pad4 y (String "-"%char (pad2 m (String "-"%char (pad2 d EmptyString)))).

(** [dt.strftime("%Y-%m-%d %H:%M:%S")] *)
Definition strftime (dt : datetime) : string :=
  pad4 (year dt) (String "-"%char (pad2 (month dt) (String "-"%char (pad2 (day dt)
    (String " "%char (pad2 (hour dt) (String ":"%char (pad2 (minute dt)
      (String ":"%char (pad2 (second dt) EmptyString)))))))))).

(** The fields of a civil date and time are within their calendar range
    (the length of the month is not needed here). *)
Definition valid_datetime (dt : datetime) : Prop :=
  0 <= year dt <= 9999 /\ 1 <= month dt <= 12 /\ 1 <= day dt <= 31 /\
  0 <= hour dt <= 23 /\ 0 <= minute dt <= 59 /\ 0 <= second dt <= 59.

(** Chronological order of naive date-times: field by field, as
    [datetime.__lt__] compares them. *)
Definition lexc (c1 c2 : comparison) : comparison :=
  match c1 with
  | Eq => c2
  | Lt => Lt
  | Gt => Gt
  end.

Definition datetime_compare (a b : datetime) : comparison :=
  lexc (year a ?= year b) (lexc (month a ?= month b) (lexc (day a ?= day b)
    (lexc (hour a ?= hour b) (lexc (minute a ?= minute b) (second a ?= second b))))).

Definition digit_val (c : ascii) : option Z :=
  let n := Z.of_N (N_of_ascii c) in
  if (48 <=? n) && (n <=? 57) then Some (n - 48) else None.

(** Readers of the pieces of a time stamp: each takes its piece off the
    front of the text and gives back the rest. *)
Definition digits2 (s : string) : option (Z * string) :=
  match s with
  | String a (String b rest) =>
      match digit_val a, digit_val b with
      | Some x, Some y => Some (10 * x + y, rest)
      | _, _ => None
      end
  | _ => None
  end.

Definition digits4 (s : string) : option (Z * string) :=
  match digits2 s with
  | Some (hi, rest) =>
      match digits2 rest with
      | Some (lo, rest') => Some (100 * hi + lo, rest')
      | None => None
      end
  | None => None
  end.

Definition expect (c : ascii) (s : string) : option string :=
  match s with
  | String a rest => if Ascii.eqb a c then Some rest else None
  | EmptyString => None
  end.

Definition field (c : ascii) (s : string) : option (Z * string) :=
  match expect c s with
  | Some rest => digits2 rest
  | None => None
  end.

(** Reads a string of the exact shape [YYYY-MM-DD HH:MM:SS]. *)
Definition parse_time (s : string) : option datetime :=
  match digits4 s with
  | Some (y, s1) =>
  match field "-" s1 with
  | Some (m, s2) =>
  match field "-" s2 with
  | Some (d, s3) =>
  match field " " s3 with
  | Some (h, s4) =>
  match field ":" s4 with
  | Some (i, s5) =>
  match field ":" s5 with
  | Some (sec, EmptyString) => Some (mkDatetime y m d h i sec)
  | _ => None
  end | None => None
  end | None => None
  end | None => None
  end | None => None
  end | None => None
  end.

(** The column [time] has the format [YYYY-MM-DD HH:MM:SS]. *)
Definition time_format (s : string) : bool :=
  match parse_time s with
  | Some _ => true
  | None => false
  end.

(** ** Snapshot rows and the history file

    One dictionary built by the loop of [fetch_crypto_data]; the fields
    are its keys, in the order of the source. *)

Record row : Type := mkRow {
  row_time : string;
  row_name : pyval;
  row_symbol : string;
  row_price : pyval;
  row_change : pyval;
  row_volume : pyval
}.

(** A line of the file [CSV_FILE]: a header of column names, or the line
    [to_csv] writes for one row.  The text of the line is not modelled:
    a data line is given by the row it was written from. *)
Inductive line : Type :=
| Header (cols : list string)
| DataLine (r : row).

Definition csv_columns : list string :=
  ["time"; "name"; "symbol"; "price"; "change"; "volume"].

(** [pd.DataFrame(rows).columns]: the keys of the dictionaries; a frame
    built from no dictionary has no column. *)
Definition columns (rows : list row) : list string :=
  match rows with
  | [] => []
  | _ :: _ => csv_columns
  end.

(** The process state: the global [last_snapshot] and the file
    [CSV_FILE], [None] while [os.path.exists(CSV_FILE)] is false. *)
Record state : Type := mkState {
  last_snapshot : list row;
  CSV_FILE : option (list line)
}.

(** ** The upstream provider and the disk *)

(** What one request meets, statement by statement of the [try] block. *)
Inductive upstream : Type :=
| NoResponse            (* [requests.get] raises: timeout, no connection *)
| ErrorStatus           (* [response.raise_for_status()] raises *)
| BadBody               (* [response.json()] raises: the body is not JSON *)
| Json (data : pyval).  (* the three statements pass, [data] is decoded *)

(** The body of the [try] block: [None] when any of its three statements
    raises, which the bare [except:] catches. *)
Definition request_json (u : upstream) : option pyval :=
  match u with
  | Json data => Some data
  | NoResponse | ErrorStatus | BadBody => None
  end.

(** What [to_csv] meets: the lines are written, or the call raises (the
    file cannot be opened or written, a text cannot be encoded) and
    leaves the file as it was; a write that stops half-way is not
    modelled. *)
Inductive disk : Type :=
| Writes
| WriteFails (e : exn).

(** One call of [fetch_crypto_data], by the scheduler or by the route
    [/data]: what the provider answers, what the disk does, and the
    reading of [datetime.now()]. *)
Record event : Type := mkEvent {
  ev_upstream : upstream;
  ev_disk : disk;
  ev_clock : datetime
}.

(** ** Frames

    A cell of a [DataFrame] read by [pd.read_csv]: missing ([NaN]), or a
    value of the type inferred for its column. *)

Inductive cell : Type :=
| NaN
| Int (z : Z)
| Float (q : Q)
| Bool (b : bool)
| Text (s : string).

Record frame_row : Type := mkFrameRow {
  cell_time : cell;
  cell_name : cell;
  cell_symbol : cell;
  cell_price : cell;
  cell_change : cell;
  cell_volume : cell
}.

(** What [pd.read_csv] makes of the file. *)
Inductive table : Type :=
| Frame (df : list frame_row)   (* the six columns of [csv_columns] *)
| NoColumns                     (* nothing but blank lines: [EmptyDataError] *)
| NoTimeColumn                  (* the first line names no column [time] *)
| OtherTable.                   (* any other table *)

Definition is_text (c : cell) : bool :=
  match c with
  | Text _ => true
  | _ => false
  end.

(** The column has the dtype [object] and holds strings, so that the
    accessor [.str] is defined: it is empty, or one of its cells is a
    string.  A column of numbers, of booleans or of missing cells only
    has no [.str]. *)
Definition str_accessor (column : list cell) : bool :=
  match column with
  | [] => true
  | _ :: _ => existsb is_text column
  end.

(** Every cell of the column is a string. *)
Fixpoint text_column (column : list cell) : option (list string) :=
  match column with
  | [] => Some []
  | Text s :: rest => option_map (cons s) (text_column rest)
  | _ :: _ => None
  end.

(** A cell of a numeric column as a number: [None] when it is missing;
    no number when the column is not numeric. *)
Definition numeric_cell (c : cell) : result (option Q) :=
  match c with
  | Int z => Return (Some (inject_Z z))
  | Float q => Return (Some q)
  | NaN => Return None
  | Bool _ | Text _ => Raise TypeError
  end.

(** The time stamp of a row, when its cell is a text of the format. *)
Definition captured_at (r : frame_row) : option datetime :=
  match cell_time r with
  | Text t => parse_time t
  | _ => None
  end.

(** Order of two cells of the column [time]: chronological when both are
    time stamps of the format. *)
Definition time_leb (a b : cell) : bool :=
  match a, b with
  | Text s, Text t =>
      match parse_time s, parse_time t with
      | Some x, Some y =>
          match datetime_compare x y with
          | Gt => false
          | _ => true
          end
      | _, _ => true
      end
  | _, _ => true
  end.

(** Row [x] is not after row [y]. *)
Definition time_le (x y : frame_row) : Prop :=
  time_leb (cell_time x) (cell_time y) = true.

(** The time of the row is a time stamp of the format. *)
Definition stamped (r : frame_row) : Prop :=
  exists t, cell_time r = Text t /\ time_format t = true.

(** ** The views' data *)

(** What [chart] plots: the title and the points (time, volatility). *)
Record figure : Type := mkFigure {
  title : string;
  points : list (cell * option R)
}.

(** A row of the table: [[['name','symbol','price','change','volume']]]. *)
Record view : Type := mkView {
  view_name : cell;
  view_symbol : cell;
  view_price : cell;
  view_change : cell;
  view_volume : cell
}.

(** The slide: its title, the header cells and one table row per row of
    [latest_df]. *)
Record slide : Type := mkSlide {
  slide_title : string;
  table_header : list string;
  table_rows : list view
}.

(** ** The libraries

    What the source leaves to Python and pandas. *)

Class library : Type := {
  (** [str.upper], which knows the letters of Unicode *)
  str_upper : string -> string;
  (** the typed cells [pd.read_csv] gives for the data lines under the
      header of [csv_columns] *)
  read_cells : list row -> list frame_row;
  (** [df.sort_values("time")] on the selection [sel] of the frame [df];
      the default algorithm (quicksort) may reorder rows of equal time *)
  sort_values : list frame_row -> list frame_row -> list frame_row;
  (** [pct_change] and [rolling(10).std()] on a price column that is not
      numeric, or in which a price of the symbol is missing (versions of
      pandas differ on whether [pct_change] fills it) *)
  other_volatility : list cell -> result (list (option R));
  (** the rolling statistic at position [i] of a series of prices, when
      a return before its window is infinite or undefined (a division by
      a zero price) *)
  tail_volatility : list Q -> nat -> option R;
  (** [pd.to_datetime(v, unit="ms").strftime("%Y-%m-%d")] on a value
      that is not an [int]: a float, a string that reads as a number
      or not, a list, null *)
  to_datetime_other : pyval -> result string;
  (** [chart] on a table of other columns than [csv_columns] *)
  other_chart : list line -> string -> outcome figure;
  (** [ppt] on a table of other columns, or whose column [time] does not
      hold strings only *)
  other_ppt : list line -> result slide
}.

(** What is assumed of the libraries. *)
Class lawful (lib : library) : Prop := {
  (** on ASCII text [str.upper] raises the letters a to z and keeps the
      rest *)
  str_upper_ascii : forall s, is_ascii s = true -> str_upper s = upper s;
  (** one row of the frame per data line, in order *)
  read_cells_length : forall rows, length (read_cells rows) = length rows;
  (** a column [time] of time stamps of the format is read as text *)
  read_cells_time : forall rows,
    Forall (fun r => time_format (row_time r) = true) rows ->
    map cell_time (read_cells rows) = map (fun r => Text (row_time r)) rows;
  (** a column [symbol] of empty texts is read as missing values *)
  read_cells_no_symbol : forall rows,
    Forall (fun r => row_symbol r = "") rows ->
    Forall (fun c => cell_symbol c = NaN) (read_cells rows);
  (** sorting keeps the rows, each once *)
  sort_values_perm : forall df sel, Permutation sel (sort_values df sel);
  (** and puts time stamps in chronological order *)
  sort_values_sorted : forall df sel,
    Forall stamped sel -> Sorted time_le (sort_values df sel);
  (** the rolling statistic has one entry per row, none over fewer than
      ten returns, and is a standard deviation *)
  other_volatility_length : forall column vs,
    other_volatility column = Return vs -> length vs = length column;
  other_volatility_blank : forall column vs i,
    other_volatility column = Return vs -> (i < 10)%nat ->
    nth_error vs i = None \/ nth_error vs i = Some None;
  other_volatility_nonneg : forall column vs v,
    other_volatility column = Return vs -> In (Some v) vs -> (0 <= v)%R;
  tail_volatility_nonneg : forall ps i v,
    tail_volatility ps i = Some v -> (0 <= v)%R;
  other_chart_nonneg : forall content symbol fig t v,
    other_chart content symbol = Served fig -> In (t, Some v) (points fig) -> (0 <= v)%R
}.

(** ** The volatility of a numeric price column *)

(** One return [cur / prev - 1].  After a zero price the quotient is
    infinite or undefined, and no window that holds it has a deviation:
    it is kept as a missing return. *)
Definition one_return (prev cur : option Q) : option Q :=
  match prev, cur with
  | Some a, Some b => if Qnum a =? 0 then None else Some (b / a - 1)%Q
  | _, _ => None
  end.

Fixpoint pct_change_from (prev : option Q) (ps : list (option Q)) : list (option Q) :=
  match ps with
  | [] => []
  | p :: rest => one_return prev p :: pct_change_from p rest
  end.

(** [df["price"].pct_change()] on a series of prices: nothing to compare
    the first price with. *)
Definition pct_change (ps : list (option Q)) : list (option Q) :=
  match ps with
  | [] => []
  | p :: rest => None :: pct_change_from p rest
  end.

Fixpoint all_some {A : Type} (l : list (option A)) : option (list A) :=
  match l with
  | [] => Some []
  | None :: _ => None
  | Some a :: rest =>
      match all_some rest with
      | Some l' => Some (a :: l')
      | None => None
      end
  end.

Definition Qsum (xs : list Q) : Q := fold_right Qplus 0%Q xs.

Definition mean (xs : list Q) : Q := (Qsum xs / inject_Z (Z.of_nat (length xs)))%Q.

(** Sample variance: squared deviations from the mean over [n - 1]. *)
Definition sample_var (xs : list Q) : Q :=
  (Qsum (map (fun x => (x - mean xs) * (x - mean xs)) xs)
   / inject_Z (Z.of_nat (length xs) - 1))%Q.

(** [.std()], the sample standard deviation. *)
Definition std (xs : list Q) : R := sqrt (Q2R (sample_var xs)).

(** The [w] entries that end at position [i]. *)
Definition window {A : Type} (w : nat) (xs : list A) (i : nat) : list A :=
  firstn w (skipn (S i - w) xs).

(** [.rolling(w).std()]: at each position the statistic of the last [w]
    entries, missing while fewer than [w] entries exist or when one of
    them is missing. *)
Definition rolling_std (w : nat) (xs : list (option Q)) : list (option R) :=
  map (fun i =>
         if (S i <? w)%nat then None
         else option_map std (all_some (window w xs i)))
      (seq 0 (length xs)).

(** [df["return"].rolling(10).std() * (252**0.5)] *)
Definition rolling_vol (returns : list (option Q)) : list (option R) :=
  map (option_map (fun s => (s * sqrt 252)%R)) (rolling_std 10 returns).

(** The returns at the positions 1 to [i] are all numbers. *)
Definition returns_defined (returns : list (option Q)) (i : nat) : bool :=
  forallb (fun r => match r with
                    | Some _ => true
                    | None => false
                    end)
          (firstn i (tl returns)).

(** ** The text maximum of the column [time] *)

(** [max] of two strings, compared as text. *)
Definition str_max (a b : string) : string := if String.ltb a b then b else a.

(** [df["time"].max()] on a column of strings; [None] is the [NaN] of an
    empty column. *)
Definition column_max (l : list string) : option string :=
  match l with
  | [] => None
  | x :: rest => Some (fold_left str_max rest x)
  end.

(** [latest_df[['name','symbol','price','change','volume']]] *)
Definition project (r : frame_row) : view :=
  {| view_name := cell_name r; view_symbol := cell_symbol r;
     view_price := cell_price r; view_change := cell_change r;
     view_volume := cell_volume r |}.

(** [df["time"] == latest_time] *)
Definition at_time (latest_time : option string) (r : frame_row) : bool :=
  match latest_time, cell_time r with
  | Some t, Text s => String.eqb s t
  | _, _ => false
  end.

(** ** Reading the lines of the file *)

Definition is_blank (l : line) : bool :=
  match l with
  | Header [] => true
  | _ => false
  end.

(** The text of the cell is [name]; only a string is written as its own
    text. *)
Definition text_is (name : string) (v : pyval) : bool :=
  match v with
  | PyStr s => String.eqb s name
  | _ => false
  end.

(** The line, read as the line of column names, names the column
    [name]. *)
Definition names_column (name : string) (l : line) : bool :=
  match l with
  | Header cols => existsb (String.eqb name) cols
  | DataLine r =>
      String.eqb (row_time r) name || text_is name (row_name r)
      || String.eqb (row_symbol r) name || text_is name (row_price r)
      || text_is name (row_change r) || text_is name (row_volume r)
  end.

Definition cols_eqb (a b : list string) : bool :=
  if list_eq_dec string_dec a b then true else false.

(** The rows of lines that are all data lines. *)
Fixpoint rows_of (lines : list line) : option (list row) :=
  match lines with
  | [] => Some []
  | DataLine r :: rest => option_map (cons r) (rows_of rest)
  | Header _ :: _ => None
  end.

(** The file that holds exactly the rows [rows] under the header. *)
Definition file_of (rows : list row) : list line :=
  Header csv_columns :: map DataLine rows.

(** ** The program *)

Section Model.

Context {lib : library}.

(** [v.upper()] on an arbitrary object: only [str] has the method. *)
Definition method_upper (v : pyval) : result string :=
  match v with
  | PyStr s => Return (str_upper s)
  | _ => Raise AttributeError
  end.

(** *** FETCH LIVE MARKET DATA *)

(** The dictionary appended for one [coin]. *)
Definition coin_row (now : string) (coin : pyval) : result row :=
  match coin with
  | PyDict d =>
      sym <- method_upper (dict_get d "symbol" (PyStr "")) ;;
      Return {| row_time := now;
                row_name := dict_get d "name" (PyStr "");
                row_symbol := sym;
                row_price := dict_get d "current_price" (PyFloat 0);
                row_change := py_or (dict_get d "price_change_percentage_24h" PyNone)
                                    (PyFloat 0);
                row_volume := dict_get d "total_volume" (PyInt 0) |}
  | _ => Raise AttributeError
  end.

(** [df_new.to_csv(CSV_FILE, index=False)] when the file does not exist,
    [df_new.to_csv(CSV_FILE, mode='a', header=False, index=False)]
    otherwise: the new content of the file, or the exception of a write
    that fails. *)
Definition to_csv (w : disk) (file : option (list line)) (rows : list row)
  : result (list line) :=
  match w with
  | WriteFails e => Raise e
  | Writes =>
      Return match file with
             | None => Header (columns rows) :: map DataLine rows
             | Some old => old ++ map DataLine rows
             end%list
  end.

(** The loop [for coin in data: rows.append({...})]. *)
Definition build_rows (now : string) (data : pyval) : result (list row) :=
  coins <- py_iter data ;; mapM (coin_row now) coins.

(** The assignment [last_snapshot = rows] comes before the write, outside
    any [try]: a write that raises leaves the new cache in place. *)
Definition fetch_crypto_data (u : upstream) (w : disk) (clock : datetime) (st : state)
  : result (list row) * state :=
  match request_json u with
  | None => (Return (last_snapshot st), st)
  | Some data =>
      let now := strftime clock in
      match build_rows now data with
      | Raise e => (Raise e, st)
      | Return rows =>
          match to_csv w (CSV_FILE st) rows with
          | Raise e => (Raise e, {| last_snapshot := rows; CSV_FILE := CSV_FILE st |})
          | Return content =>
              (Return rows, {| last_snapshot := rows; CSV_FILE := Some content |})
          end
      end
  end.

(** A run of the process, call after call. *)
Fixpoint run (events : list event) (st : state) : state :=
  match events with
  | [] => st
  | e :: rest =>
      run rest (snd (fetch_crypto_data (ev_upstream e) (ev_disk e) (ev_clock e) st))
  end.

(** A call that gets past the loop, and the batch it builds. *)
Definition batch_of (u : upstream) (clock : datetime) : option (list row) :=
  match request_json u with
  | None => None
  | Some data =>
      match build_rows (strftime clock) data with
      | Raise _ => None
      | Return rows => Some rows
      end
  end.

(** [/data]: the answer [jsonify(fetch_crypto_data())], and the state the
    call leaves. *)
Definition data (u : upstream) (w : disk) (clock : datetime) (st : state)
  : outcome (list row) * state :=
  match fetch_crypto_data u w clock st with
  | (Return rows, st') => (Served rows, st')
  | (Raise e, st') => (Failed e, st')
  end.

(** *** Reading the file back *)

(** [pd.read_csv(CSV_FILE)]: blank lines are skipped and the first line
    left names the columns, whether it was written as a header or as a
    row. *)
Definition read_csv (file : list line) : table :=
  match filter (fun l => negb (is_blank l)) file with
  | [] => NoColumns
  | first :: rest =>
      if names_column "time" first then
        match first, rows_of rest with
        | Header cols, Some rows =>
            if cols_eqb cols csv_columns then Frame (read_cells rows) else OtherTable
        | _, _ => OtherTable
        end
      else NoTimeColumn
  end.

(** *** BTC VOLATILITY IMAGE CHART *)

(** [df["symbol"].str.upper() == symbol.upper()]; a cell that is not a
    string compares unequal. *)
Definition matches (symbol : string) (r : frame_row) : bool :=
  match cell_symbol r with
  | Text s => String.eqb (str_upper s) (str_upper symbol)
  | _ => false
  end.

(** The column [rolling_vol] of a series of prices.  An entry whose
    window holds a missing return is missing; an entry whose window
    comes after an infinite or undefined return is the library's, the
    running sums of [rolling] having met that return. *)
Definition numeric_volatility (ps : list Q) : list (option R) :=
  let returns := pct_change (map Some ps) in
  map (fun i =>
         match nth i (rolling_vol returns) None with
         | None => None
         | Some v => if returns_defined returns i then Some v else tail_volatility ps i
         end)
      (seq 0 (length ps)).

(** The column [rolling_vol] of the sorted selection [sorted] of the
    frame [df]. *)
Definition volatility (df sorted : list frame_row) : result (list (option R)) :=
  match mapM numeric_cell (map cell_price df) with
  | Raise _ => other_volatility (map cell_price sorted)
  | Return _ =>
      prices <- mapM numeric_cell (map cell_price sorted) ;;
      match all_some prices with
      | Some ps => Return (numeric_volatility ps)
      | None => other_volatility (map cell_price sorted)
      end
  end.

(** Without a column [time], [read_csv] raises on [parse_dates]. *)
Definition chart (file : option (list line)) (symbol : string) : outcome figure :=
  match file with
  | None => NotFound "No data yet"
  | Some content =>
      match read_csv content with
      | NoColumns => Failed EmptyDataError
      | NoTimeColumn => Failed ValueError
      | OtherTable => other_chart content symbol
      | Frame df =>
          if str_accessor (map cell_symbol df) then
            match filter (matches symbol) df with
            | [] => NotFound "No data for this symbol"
            | sel =>
                let sorted := sort_values df sel in
                match volatility df sorted with
                | Raise e => Failed e
                | Return vol =>
                    Served {| title := str_upper symbol ++ " Volatility";
                              points := combine (map cell_time sorted) vol |}
                end
            end
          else Failed AttributeError
      end
  end.

(** *** PPTX EXPORT *)

(** Without a column [time], [df["time"]] raises. *)
Definition ppt (file : option (list line)) : outcome slide :=
  match file with
  | None => NotFound "No data yet"
  | Some content =>
      let other := match other_ppt content with
                   | Return s => Served s
                   | Raise e => Failed e
                   end in
      match read_csv content with
      | NoColumns => Failed EmptyDataError
      | NoTimeColumn => Failed KeyError
      | OtherTable => other
      | Frame df =>
          match text_column (map cell_time df) with
          | None => other
          | Some times =>
              let latest_time := column_max times in
              let latest_df := map project (filter (at_time latest_time) df) in
              Served {| slide_title :=
                          "Crypto Report - " ++
                          match latest_time with
                          | Some t => t
                          | None => "nan"
                          end;
                        table_header := ["name"; "symbol"; "price"; "change"; "volume"];
                        table_rows := latest_df |}
          end
      end
  end.

(** The rows [chart] plots for a symbol: those that match, sorted. *)
Definition selected (df : list frame_row) (symbol : string) : list frame_row :=
  sort_values df (filter (matches symbol) df).

(** The batches of the calls of a run that get past the loop: each
    replaces [last_snapshot]. *)
Definition successes (events : list event) : list (list row) :=
  flat_map (fun e => match batch_of (ev_upstream e) (ev_clock e) with
                     | Some rows => [rows]
                     | None => []
                     end) events.

(** The batches of the calls of a run that succeed: the batch is built
    and written. *)
Definition appended (events : list event) : list (list row) :=
  flat_map (fun e => match batch_of (ev_upstream e) (ev_clock e), ev_disk e with
                     | Some rows, Writes => [rows]
                     | _, _ => []
                     end) events.

End Model.

(** ** BTC 7-DAY PRICE HISTORY FOR CHART.JS *)

(** The civil date (year, month, day) of a count of days since
    1970-01-01, in the proleptic Gregorian calendar. *)
Definition civil_from_days (days : Z) : Z * Z * Z :=
  let z := days + 719468 in
  let era := z / 146097 in
  let doe := z - era * 146097 in
  let yoe := (doe - doe / 1460 + doe / 36524 - doe / 146096) / 365 in
  let doy := doe - (365 * yoe + yoe / 4 - yoe / 100) in
  let mp := (5 * doy + 2) / 153 in
  let d := doy - (153 * mp + 2) / 5 + 1 in
  let m := if mp <? 10 then mp + 3 else mp - 9 in
  (yoe + era * 400 + (if m <=? 2 then 1 else 0), m, d).

Definition ms_per_day : Z := 86400000.

(** [pd.to_datetime(ms, unit="ms").strftime("%Y-%m-%d")] on an integer. *)
Definition date_of_ms (ms : Z) : string :=
  let '(y, m, d) := civil_from_days (ms / ms_per_day) in strftime_date y m d.

(** The milliseconds a [Timestamp] can hold (nanoseconds on 64 bits). *)
Definition timestamp_in_bounds (ms : Z) : bool :=
  (-9223372036854 <=? ms) && (ms <=? 9223372036854).

Section Feed.

Context {lib : library}.

(** [pd.to_datetime(v, unit="ms").strftime("%Y-%m-%d")]: a whole number
    of milliseconds gives its date; a boolean is refused; any other
    value is the library's. *)
Definition to_datetime_date (v : pyval) : result string :=
  match v with
  | PyInt ms =>
      if timestamp_in_bounds ms then Return (date_of_ms ms)
      else Raise OutOfBoundsDatetime
  | PyBool _ => Raise TypeError
  | _ => to_datetime_other v
  end.

(** The number of hundredths nearest to [q], a tie going to the even
    one. *)
Definition round2 (q : Q) : Q := round_half_even (q * 100) # 100.

(** [round(v, 2)]: an [int] is returned as it is; a [float] gives the
    double nearest to the number of hundredths nearest to its value. *)
Definition py_round2 (v : pyval) : result pyval :=
  match v with
  | PyInt z => Return (PyInt z)
  | PyBool b => Return (PyInt (if b then 1 else 0))
  | PyFloat q => Return (PyFloat (binary64 (round2 q)))
  | _ => Raise TypeError
  end.

(** [v[i]] *)
Definition subscript (v : pyval) (i : nat) : result pyval :=
  match v with
  | PyList l =>
      match nth_error l i with
      | Some x => Return x
      | None => Raise IndexError
      end
  | PyStr s =>
      match nth_error (chars s) i with
      | Some x => Return x
      | None => Raise IndexError
      end
  | PyDict _ => Raise KeyError
  | _ => Raise TypeError
  end.

(** One element of the answer of [/btc_history]. *)
Record point : Type := mkPoint {
  point_date : string;
  point_price : pyval
}.

Definition clean_point (p : pyval) : result point :=
  t <- subscript p 0 ;;
  date <- to_datetime_date t ;;
  x <- subscript p 1 ;;
  rounded <- py_round2 x ;;
  Return {| point_date := date; point_price := rounded |}.

Definition btc_history (u : upstream) : result (list point) :=
  match request_json u with
  | None => Return []
  | Some data =>
      match data with
      | PyDict d =>
          prices <- py_iter (dict_get d "prices" (PyList [])) ;;
          mapM clean_point prices
      | _ => Raise AttributeError
      end
  end.

End Feed.

(** ** The latest snapshot, as the specification words it

    [maxTime] is the maximum [captured_at] across all rows, a timestamp;
    the answer is every row with [captured_at == maxTime], projected. *)

Definition later (a b : datetime) : datetime :=
  match datetime_compare a b with
  | Lt => b
  | _ => a
  end.

Fixpoint max_captured_at (rows : list frame_row) : option datetime :=
  match rows with
  | [] => None
  | r :: rest =>
      match captured_at r, max_captured_at rest with
      | Some t, Some m => Some (later t m)
      | Some t, None => Some t
      | None, m => m
      end
  end.

Definition captured_at_is (maxTime : datetime) (r : frame_row) : bool :=
  match captured_at r with
  | Some t =>
      match datetime_compare t maxTime with
      | Eq => true
      | _ => false
      end
  | None => false
  end.

Definition latest_snapshot_spec (rows : list frame_row) : list view :=
  match max_captured_at rows with
  | None => []
  | Some maxTime => map project (filter (captured_at_is maxTime) rows)
  end.

(** ** Definitions used by the statements *)

(** [key in d] and [d[key]] together: the value bound to the key, if any. *)
Fixpoint dict_lookup (items : list (string * pyval)) (key : string) : option pyval :=
  match items with
  | [] => None
  | (k, v) :: rest => if String.eqb k key then Some v else dict_lookup rest key
  end.

(** The asset objects the loop accepts: a dictionary whose [symbol], when
    it has one, is a string. *)
Definition asset (coin : pyval) : Prop :=
  exists d, coin = PyDict d /\
    (dict_lookup d "symbol" = None \/ exists s, dict_lookup d "symbol" = Some (PyStr s)).

(** The character at a position of a string. *)
Fixpoint char_at (s : string) (i : nat) : option ascii :=
  match s, i with
  | EmptyString, _ => None
  | String c _, O => Some c
  | String _ s', S i' => char_at s' i'
  end.

(** The capital of a letter a to z (code 97 to 122), and any other
    character as it is. *)
Definition capital (c : ascii) : ascii :=
  if ((97 <=? N_of_ascii c) && (N_of_ascii c <=? 122))%N
  then ascii_of_N (N_of_ascii c - 32) else c.



Definition lines_of (file : option (list line)) : list line :=
  match file with
  | Some content => content
  | None => []
  end.




(** The file after a run, from the file before it and the batches
    written. *)
Definition grown (file : option (list line)) (batches : list (list row))
  : option (list line) :=
  match file, batches with
  | Some old, _ => Some (old ++ map DataLine (concat batches))%list
  | None, [] => None
  | None, first :: _ => Some (Header (columns first) :: map DataLine (concat batches))
  end.

(** The return at position [j >= 1] of a price series, as the
    specification writes it: [price[j] / price[j-1] - 1]. *)
Definition return_at (ps : list Q) (j : nat) : Q :=
  (nth j ps 0 / nth (j - 1) ps 0 - 1)%Q.


(** A price point as the provider sends it: [[timestamp_ms, price]], the
    price a float. *)
Definition raw_point (p : Z * Q) : pyval := PyList [PyInt (fst p); PyFloat (snd p)].


(** The text of the time of a row whose cell is a string. *)
Definition time_text (r : frame_row) : string :=
  match cell_time r with
  | Text t => t
  | _ => ""
  end.

(** The time of the row is the text [t]. *)
Definition has_time (t : string) (r : frame_row) : bool :=
  match cell_time r with
  | Text s => String.eqb s t
  | _ => false
  end.

(** [rows = latest_df.shape[0] + 1] and [cols = latest_df.shape[1]]: the
    size of the table [add_table] is asked for. *)
Definition table_size (s : slide) : nat * nat :=
  (S (length (table_rows s)), length (table_header s)).

(** The clock of a later call never shows an earlier time. *)
Definition clock_never_goes_back (events : list event) : Prop :=
  StronglySorted (fun e1 e2 => datetime_compare (ev_clock e1) (ev_clock e2) <> Gt) events.

(** Rows in non-decreasing order of the text of their times. *)
Definition in_time_order (rows : list row) : Prop :=
  StronglySorted (fun r1 r2 => String.leb (row_time r1) (row_time r2) = true) rows.


(** ** A reference library

    One library, used to run the model on sample data: ASCII
    upper-casing; cells typed column by column (the common markers of a
    missing value, integers turned into floats in a numeric column that
    holds a float or a missing value); a stable sort. *)

Definition na_text (s : string) : bool :=
  existsb (String.eqb s)
    [""; "NA"; "N/A"; "NULL"; "NaN"; "nan"; "null"; "n/a"; "#N/A"; "<NA>"; "None"].

Definition read_text (s : string) : cell := if na_text s then NaN else Text s.

Definition read_value (v : pyval) : cell :=
  match v with
  | PyNone => NaN
  | PyBool b => Bool b
  | PyInt z => Int z
  | PyFloat q => Float q
  | PyStr s => read_text s
  | PyList _ => Text "[...]"
  | PyDict _ => Text "{...}"
  end.

Definition is_number (c : cell) : bool :=
  match c with
  | NaN | Int _ | Float _ => true
  | Bool _ | Text _ => false
  end.

Definition is_int (c : cell) : bool :=
  match c with
  | Int _ => true
  | _ => false
  end.

(** The column is read as floats: it holds numbers and missing values
    only, and not integers only. *)
Definition float_column (column : list cell) : bool :=
  forallb is_number column && negb (forallb is_int column).

Definition as_float (to_float : bool) (c : cell) : cell :=
  match to_float, c with
  | true, Int z => Float (inject_Z z)
  | _, _ => c
  end.

Definition infer_cells (rows : list row) : list frame_row :=
  let typed (read : row -> cell) :=
    as_float (float_column (map read rows)) in
  map (fun r =>
         {| cell_time := typed (fun r => read_text (row_time r)) (read_text (row_time r));
            cell_name := typed (fun r => read_value (row_name r)) (read_value (row_name r));
            cell_symbol :=
              typed (fun r => read_text (row_symbol r)) (read_text (row_symbol r));
            cell_price :=
              typed (fun r => read_value (row_price r)) (read_value (row_price r));
            cell_change :=
              typed (fun r => read_value (row_change r)) (read_value (row_change r));
            cell_volume :=
              typed (fun r => read_value (row_volume r)) (read_value (row_volume r)) |})
      rows.

Fixpoint insert_row (r : frame_row) (sorted : list frame_row) : list frame_row :=
  match sorted with
  | [] => [r]
  | x :: rest =>
      if time_leb (cell_time r) (cell_time x) then r :: sorted
      else x :: insert_row r rest
  end.

(** Insertion sort: rows of equal time keep their order. *)
Definition stable_sort (rows : list frame_row) : list frame_row :=
  fold_right insert_row [] rows.

Definition reference_library : library :=
  {| str_upper := upper;
     read_cells := infer_cells;
     sort_values := fun _ => stable_sort;
     to_datetime_other := fun _ => Raise ValueError;
     other_volatility := fun _ => Raise TypeError;
     tail_volatility := fun _ _ => None;
     other_chart := fun _ _ => Failed KeyError;
     other_ppt := fun _ => Raise KeyError |}.

(** ** Sample data *)

(** Two assets as the provider lists them, the second with a null change
    and no volume; a clock reading; the state after one capture. *)
Definition sample_coins : list pyval :=
  [ PyDict [("name", PyStr "Bitcoin"); ("symbol", PyStr "btc");
            ("current_price", PyInt 64000);
            ("price_change_percentage_24h", PyFloat (-3 # 2));
            ("total_volume", PyInt 1000)];
    PyDict [("name", PyStr "Ethereum"); ("symbol", PyStr "eth");
            ("current_price", PyFloat (6401 # 2));
            ("price_change_percentage_24h", PyNone)] ].

Definition sample_clock : datetime := mkDatetime 2024 3 9 14 5 30.

Definition sample_state : state :=
  snd (fetch_crypto_data (lib := reference_library) (Json (PyList sample_coins)) Writes
                         (mkDatetime 2024 3 9 14 5 0) (mkState [] None)).

(** Three calls: a capture of the two sample assets, a failure of the
    provider, and a second capture. *)
Definition sample_events : list event :=
  [ mkEvent (Json (PyList sample_coins)) Writes (mkDatetime 2024 3 9 14 5 30);
    mkEvent ErrorStatus Writes (mkDatetime 2024 3 9 14 6 0);
    mkEvent (Json (PyList sample_coins)) Writes (mkDatetime 2024 3 9 14 6 30) ].

(** The rows of the two captures of [sample_events], and the frame read
    from the file that holds them. *)
Definition sample_rows : list row :=
  concat (successes (lib := reference_library) sample_events).

Definition sample_frame : list frame_row := infer_cells sample_rows.

(** Twelve captures of two assets, one minute apart. *)
Definition capture_rows (c : Z * Z * Z) : list row :=
  let '(minute, btc, eth) := c in
  let now := strftime (mkDatetime 2024 3 9 14 minute 0) in
  [ mkRow now (PyStr "Bitcoin") "BTC" (PyInt btc) (PyFloat 0) (PyInt 1000);
    mkRow now (PyStr "Ethereum") "ETH" (PyInt eth) (PyFloat 0) (PyInt 500) ].

Definition twelve_captures : list row :=
  flat_map capture_rows
    [ (0, 100, 50); (1, 101, 51); (2, 99, 50); (3, 102, 52); (4, 98, 51);
      (5, 103, 53); (6, 97, 52); (7, 104, 54); (8, 96, 53); (9, 105, 55);
      (10, 95, 54); (11, 106, 56) ].

Definition twelve_frame : list frame_row := infer_cells twelve_captures.

Definition btc_prices : list Q :=
  map inject_Z [100; 101; 99; 102; 98; 103; 97; 104; 96; 105; 95; 106].


(** Two assets, the second with a null symbol. *)
Definition null_symbol_coins : list pyval :=
  [ PyDict [("name", PyStr "Bitcoin"); ("symbol", PyStr "btc");
            ("current_price", PyInt 64000)];
    PyDict [("name", PyStr "Ethereum"); ("symbol", PyNone);
            ("current_price", PyInt 3200)] ].


(** A first capture that lists no asset, then the calls of
    [sample_events]. *)
Definition empty_first_events : list event :=
  mkEvent (Json (PyList [])) Writes (mkDatetime 2024 3 9 14 5 0) :: sample_events.


(** Twelve prices, each the double of the one before. *)
Definition doubling_prices : list Q :=
  map inject_Z [1; 2; 4; 8; 16; 32; 64; 128; 256; 512; 1024; 2048].

(** A feed whose second point has no price. *)
Definition short_point_feed : list (string * pyval) :=
  [ ("prices", PyList [ raw_point (1700000000000, binary64 (42567 # 1000));
                        PyList [PyInt 1700086400000] ]) ].

(** * Properties *)

(** Case analysis on the membership [H : In x [a; b; ...]] of a literal
    list, closing each case by [tac]. *)
Ltac each_member H tac :=
  repeat (destruct H as [<- | H]; [tac|]); destruct H.

(** ** Results and dictionaries *)

Lemma dict_get_lookup (d : list (string * pyval)) (key : string) (default : pyval) :
  dict_get d key default =
  match dict_lookup d key with
  | Some v => v
  | None => default
  end.
Proof.
  induction d as [|[k v] rest IH]; simpl; [reflexivity|].
  destruct (String.eqb k key); auto.
Qed.

Section MapM.

Context {A B : Type} (f : A -> result B).

Lemma mapM_length (l : list A) (out : list B) :
  mapM f l = Return out -> length out = length l.
Proof.
  revert out; induction l as [|a l IH]; simpl; intros out H.
  - inversion H; reflexivity.
  - destruct (f a) as [b|e]; simpl in H; [|discriminate].
    destruct (mapM f l) as [bs|e]; simpl in H; [|discriminate].
    inversion H; subst; simpl; f_equal; apply IH; reflexivity.
Qed.

Lemma mapM_nth (l : list A) (out : list B) :
  mapM f l = Return out ->
  forall i a, nth_error l i = Some a ->
  exists b, nth_error out i = Some b /\ f a = Return b.
Proof.
  revert out; induction l as [|x l IH]; simpl; intros out H i a Hi.
  - destruct i; discriminate.
  - destruct (f x) as [b|e] eqn:Hx; simpl in H; [|discriminate].
    destruct (mapM f l) as [bs|e] eqn:Hl; simpl in H; [|discriminate].
    inversion H; subst; clear H.
    destruct i as [|i]; simpl in *.
    + inversion Hi; subst; eauto.
    + eapply IH; eauto.
Qed.

Lemma mapM_total (l : list A) :
  (forall a, In a l -> exists b, f a = Return b) ->
  exists out, mapM f l = Return out.
Proof.
  induction l as [|x l IH]; simpl; intros H.
  - eauto.
  - destruct (H x (or_introl eq_refl)) as [b Hb].
    destruct IH as [bs Hbs]; [intros; apply H; auto|].
    rewrite Hb, Hbs; simpl; eauto.
Qed.

End MapM.

(** ** Upper case *)

Lemma upper_char_not_lower (c : ascii) : is_lower (upper_char c) = false.
Proof.
  destruct c as [[] [] [] [] [] [] [] []]; reflexivity.
Qed.

Lemma upper_char_idem (c : ascii) : upper_char (upper_char c) = upper_char c.
Proof.
  unfold upper_char at 1; rewrite upper_char_not_lower; reflexivity.
Qed.

Lemma upper_idem (s : string) : upper (upper s) = upper s.
Proof.
  induction s as [|c s IH]; simpl; [reflexivity|].
  rewrite upper_char_idem, IH; reflexivity.
Qed.

Lemma all_ascii_complete (c : ascii) : In c (map ascii_of_nat (seq 0 256)).
Proof.
  rewrite <- (ascii_nat_embedding c).
  apply in_map, in_seq.
  pose proof (nat_ascii_bounded c); lia.
Qed.

Lemma same_letter_upper (a b : ascii) :
  same_letter a b = Ascii.eqb (upper_char a) (upper_char b).
Proof.
  assert (H : forallb (fun x => forallb (fun y =>
            Bool.eqb (same_letter x y) (Ascii.eqb (upper_char x) (upper_char y)))
            (map ascii_of_nat (seq 0 256))) (map ascii_of_nat (seq 0 256)) = true)
    by (vm_compute; reflexivity).
  rewrite forallb_forall in H.
  specialize (H a (all_ascii_complete a)).
  rewrite forallb_forall in H.
  apply Bool.eqb_prop, H, all_ascii_complete.
Qed.

Lemma eq_nocase_upper (s t : string) :
  eq_nocase s t = String.eqb (upper s) (upper t).
Proof.
  revert t; induction s as [|a s IH]; intros [|b t]; simpl; try reflexivity.
  rewrite same_letter_upper, IH.
  destruct (Ascii.eqb (upper_char a) (upper_char b)); reflexivity.
Qed.


Lemma upper_char_capital (c : ascii) : upper_char c = capital c.
Proof. reflexivity. Qed.

Lemma char_at_upper (s : string) (i : nat) :
  char_at (upper s) i = option_map capital (char_at s i).
Proof.
  revert i; induction s as [|c s IH]; intros i; [destruct i; reflexivity|].
  destruct i as [|i]; simpl; [reflexivity|apply IH].
Qed.

Lemma upper_length (s : string) : String.length (upper s) = String.length s.
Proof. induction s as [|c s IH]; simpl; congruence. Qed.

(** No capital is a letter a to z. *)
Lemma capital_not_lower (c : ascii) :
  ((97 <=? N_of_ascii (capital c)) && (N_of_ascii (capital c) <=? 122))%N = false.
Proof. destruct c as [[] [] [] [] [] [] [] []]; reflexivity. Qed.

(** ** Time stamps are not markers of a missing value *)

Lemma time_format_not_na (t : string) : time_format t = true -> na_text t = false.
Proof.
  unfold time_format, parse_time, digits4, digits2.
  destruct t as [|a [|b rest]]; try discriminate.
  destruct (digit_val a) as [x|] eqn:Ha; [intros _|discriminate].
  revert Ha; destruct a as [[] [] [] [] [] [] [] []];
    (discriminate || (intros _; reflexivity)).
Qed.

(** ** The reference library keeps the laws *)

Lemma lexc_opp (a b : comparison) :
  CompOpp (lexc a b) = lexc (CompOpp a) (CompOpp b).
Proof. destruct a; reflexivity. Qed.

Lemma datetime_compare_antisym (a b : datetime) :
  datetime_compare b a = CompOpp (datetime_compare a b).
Proof.
  unfold datetime_compare. rewrite !lexc_opp, <- !Z.compare_antisym. reflexivity.
Qed.

Lemma time_leb_total (a b : cell) : time_leb a b = false -> time_leb b a = true.
Proof.
  destruct a as [| | | |s], b as [| | | |t]; try discriminate; simpl.
  destruct (parse_time s) as [x|], (parse_time t) as [y|]; try discriminate.
  rewrite (datetime_compare_antisym x y).
  destruct (datetime_compare x y); simpl; congruence.
Qed.

Lemma insert_row_perm (r : frame_row) (l : list frame_row) :
  Permutation (r :: l) (insert_row r l).
Proof.
  induction l as [|x l IH]; simpl; [reflexivity|].
  destruct (time_leb (cell_time r) (cell_time x)); [reflexivity|].
  rewrite perm_swap. apply perm_skip, IH.
Qed.

Lemma stable_sort_perm (l : list frame_row) : Permutation l (stable_sort l).
Proof.
  induction l as [|r l IH]; simpl; [reflexivity|].
  rewrite <- insert_row_perm. apply perm_skip, IH.
Qed.

Lemma insert_row_hdrel (a r : frame_row) (l : list frame_row) :
  time_le a r -> HdRel time_le a l -> HdRel time_le a (insert_row r l).
Proof.
  intros Har Hl; destruct l as [|x l]; simpl; [constructor; exact Har|].
  destruct (time_leb (cell_time r) (cell_time x)); constructor;
    [exact Har|inversion Hl; assumption].
Qed.

Lemma insert_row_sorted (r : frame_row) (l : list frame_row) :
  Sorted time_le l -> Sorted time_le (insert_row r l).
Proof.
  induction l as [|x l IH]; intros Hs; simpl.
  - repeat constructor.
  - destruct (time_leb (cell_time r) (cell_time x)) eqn:E.
    + constructor; [exact Hs|constructor; exact E].
    + inversion Hs as [|? ? Hl Hhd]; subst.
      constructor; [apply IH, Hl|].
      apply insert_row_hdrel; [apply time_leb_total, E|exact Hhd].
Qed.

Lemma stable_sort_sorted (l : list frame_row) : Sorted time_le (stable_sort l).
Proof.
  induction l as [|r l IH]; simpl; [constructor|].
  apply insert_row_sorted, IH.
Qed.

Lemma infer_cells_time (rows : list row) :
  Forall (fun r => time_format (row_time r) = true) rows ->
  map cell_time (infer_cells rows) = map (fun r => Text (row_time r)) rows.
Proof.
  intros Hfmt; unfold infer_cells; rewrite map_map.
  apply map_ext_in; intros r Hr; cbn [cell_time].
  rewrite Forall_forall in Hfmt.
  unfold read_text; rewrite (time_format_not_na _ (Hfmt r Hr)).
  destruct (float_column _); reflexivity.
Qed.

Lemma infer_cells_no_symbol (rows : list row) :
  Forall (fun r => row_symbol r = "") rows ->
  Forall (fun c => cell_symbol c = NaN) (infer_cells rows).
Proof.
  intros Hsym; unfold infer_cells.
  apply Forall_forall; intros c Hc.
  apply in_map_iff in Hc; destruct Hc as (r & <- & Hr); cbn [cell_symbol].
  rewrite Forall_forall in Hsym; rewrite (Hsym r Hr).
  destruct (float_column _); reflexivity.
Qed.

Lemma reference_lawful : lawful reference_library.
Proof.
  constructor; cbn [str_upper read_cells sort_values other_volatility tail_volatility
                    other_chart reference_library].
  - reflexivity.
  - intros rows; apply length_map.
  - exact infer_cells_time.
  - exact infer_cells_no_symbol.
  - intros df; exact stable_sort_perm.
  - intros df sel _; apply stable_sort_sorted.
  - discriminate.
  - discriminate.
  - discriminate.
  - discriminate.
  - discriminate.
Qed.

(** ** The snapshot fetcher *)

Lemma coin_row_asset {lib : library} (now : string) (coin : pyval) :
  asset coin -> exists r, coin_row now coin = Return r.
Proof.
  intros [d [-> Hsym]]; unfold coin_row.
  rewrite (dict_get_lookup d "symbol").
  destruct Hsym as [-> | [s ->]]; simpl; eauto.
Qed.

Lemma coin_row_fields {lib : library} (now : string) (d : list (string * pyval))
      (r : row) :
  coin_row now (PyDict d) = Return r ->
  row_time r = now /\
  row_name r = dict_get d "name" (PyStr "") /\
  method_upper (dict_get d "symbol" (PyStr "")) = Return (row_symbol r) /\
  row_price r = dict_get d "current_price" (PyFloat 0) /\
  row_change r = py_or (dict_get d "price_change_percentage_24h" PyNone) (PyFloat 0) /\
  row_volume r = dict_get d "total_volume" (PyInt 0).
Proof.
  unfold coin_row.
  destruct (method_upper (dict_get d "symbol" (PyStr ""))) as [sym|e]; simpl;
    [|discriminate].
  intros H; inversion H; subst; simpl; repeat split; reflexivity.
Qed.

(** The content of the file after the lines of a batch are written. *)
Lemma to_csv_writes {lib : library} (file : option (list line)) (rows : list row) :
  to_csv Writes file rows
  = Return (lines_of file ++
            match file with
            | Some _ => []
            | None => [Header (columns rows)]
            end ++ map DataLine rows)%list.
Proof. destruct file; reflexivity. Qed.

Lemma fetch_success {lib : library} (u : upstream) (clock : datetime) (st : state)
      (rows : list row) :
  batch_of u clock = Some rows ->
  fetch_crypto_data u Writes clock st =
  (Return rows,
   {| last_snapshot := rows;
      CSV_FILE := Some (lines_of (CSV_FILE st) ++
                        match CSV_FILE st with
                        | Some _ => []
                        | None => [Header (columns rows)]
                        end ++ map DataLine rows)%list |}).
Proof.
  unfold batch_of, fetch_crypto_data.
  destruct (request_json u) as [data|]; [|discriminate].
  destruct (build_rows (strftime clock) data) as [rs|e]; [|discriminate].
  intros H; inversion H; subst. rewrite to_csv_writes; reflexivity.
Qed.

Lemma fetch_write_fails {lib : library} (u : upstream) (e : exn) (clock : datetime)
      (st : state) (rows : list row) :
  batch_of u clock = Some rows ->
  fetch_crypto_data u (WriteFails e) clock st =
  (Raise e, {| last_snapshot := rows; CSV_FILE := CSV_FILE st |}).
Proof.
  unfold batch_of, fetch_crypto_data.
  destruct (request_json u) as [data|]; [|discriminate].
  destruct (build_rows (strftime clock) data) as [rs|e0]; [|discriminate].
  intros H; inversion H; reflexivity.
Qed.

Lemma fetch_no_batch {lib : library} (u : upstream) (w : disk) (clock : datetime)
      (st : state) :
  batch_of u clock = None -> snd (fetch_crypto_data u w clock st) = st.
Proof.
  unfold batch_of, fetch_crypto_data.
  destruct (request_json u) as [data|]; [|reflexivity].
  destruct (build_rows (strftime clock) data) as [rs|e]; [discriminate|reflexivity].
Qed.

Lemma fetch_cache {lib : library} (u : upstream) (w : disk) (clock : datetime)
      (st : state) (rows : list row) :
  batch_of u clock = Some rows ->
  last_snapshot (snd (fetch_crypto_data u w clock st)) = rows.
Proof.
  intros Hb; destruct w as [|e].
  - rewrite (fetch_success _ _ st Hb); reflexivity.
  - rewrite (fetch_write_fails _ e _ st Hb); reflexivity.
Qed.

Lemma grown_step (file : option (list line)) (rows : list row) (rest : list (list row)) :
  grown (Some (lines_of file ++
               match file with
               | Some _ => []
               | None => [Header (columns rows)]
               end ++ map DataLine rows)%list) rest
  = grown file (rows :: rest).
Proof.
  destruct file as [old|]; simpl.
  - rewrite map_app, app_assoc; reflexivity.
  - rewrite map_app; reflexivity.
Qed.

Lemma grown_nil (file : option (list line)) : grown file [] = file.
Proof. destruct file; simpl; [rewrite app_nil_r|]; reflexivity. Qed.

Lemma run_file {lib : library} (events : list event) (st : state) :
  CSV_FILE (run events st) = grown (CSV_FILE st) (appended events).
Proof.
  revert st; induction events as [|[u w clock] rest IH]; intros st.
  - simpl; symmetry; apply grown_nil.
  - cbn [run ev_upstream ev_disk ev_clock]. rewrite IH.
    unfold appended; cbn [flat_map ev_upstream ev_disk ev_clock].
    destruct (batch_of u clock) as [rows|] eqn:Hb.
    + destruct w as [|e].
      * rewrite (fetch_success _ _ st Hb); cbn [snd CSV_FILE app].
        apply grown_step.
      * rewrite (fetch_write_fails _ e _ st Hb); reflexivity.
    + rewrite (fetch_no_batch _ w _ st Hb); reflexivity.
Qed.




Lemma fetch_returns_cache {lib : library} (u : upstream) (w : disk) (clock : datetime)
      (st st' : state) (rows : list row) :
  fetch_crypto_data u w clock st = (Return rows, st') -> last_snapshot st' = rows.
Proof.
  unfold fetch_crypto_data.
  destruct (request_json u) as [data|].
  - destruct (build_rows (strftime clock) data) as [rs|e]; [|discriminate].
    destruct (to_csv w (CSV_FILE st) rs); intros H; inversion H; reflexivity.
  - intros H; inversion H; subst; reflexivity.
Qed.

(** C2.  When the upstream fetch fails, by a timeout or lost connection,
    a status that [raise_for_status] refuses, or a body that is not JSON,
    [fetch_crypto_data] does not raise: it returns the value of
    [last_snapshot], and leaves both [last_snapshot] and the history file
    as they were (no row is appended).  The answer is then the one of any
    preceding call that ended in this state. *)
Theorem fetch_failure_falls_back {lib : library}
        (u : upstream) (w : disk) (clock : datetime) (st : state) :
  u = NoResponse \/ u = ErrorStatus \/ u = BadBody ->
  fetch_crypto_data u w clock st = (Return (last_snapshot st), st) /\
  CSV_FILE (snd (fetch_crypto_data u w clock st)) = CSV_FILE st /\
  forall u0 w0 clock0 st0 rows,
    fetch_crypto_data u0 w0 clock0 st0 = (Return rows, st) ->
    fetch_crypto_data u w clock st = (Return rows, st).
Proof.
  intros H.
  assert (Hreq : request_json u = None)
    by (destruct H as [-> | [-> | ->]]; reflexivity).
  assert (Hfetch : fetch_crypto_data u w clock st = (Return (last_snapshot st), st))
    by (unfold fetch_crypto_data; rewrite Hreq; reflexivity).
  split; [exact Hfetch|]. split; [rewrite Hfetch; reflexivity|].
  intros u0 w0 clock0 st0 rows H0.
  rewrite Hfetch, (fetch_returns_cache _ _ _ _ H0); reflexivity.
Qed.

Lemma fetch_failure_falls_back_witness :
  (ErrorStatus = NoResponse \/ ErrorStatus = ErrorStatus \/ ErrorStatus = BadBody) /\
  fetch_crypto_data (lib := reference_library) ErrorStatus Writes sample_clock sample_state
  = (Return (last_snapshot sample_state), sample_state) /\
  last_snapshot sample_state <> [].
Proof.
  assert (H : ErrorStatus = NoResponse \/ ErrorStatus = ErrorStatus \/
              ErrorStatus = BadBody) by (right; left; reflexivity).
  split; [exact H|]. split.
  - exact (proj1 (@fetch_failure_falls_back reference_library _ Writes sample_clock
                    sample_state H)).
  - vm_compute; discriminate.
Defined.

(** C4.  On a response whose body is a list of asset objects,
    [fetch_crypto_data] builds one row per asset, in order: the rows are
    the new [last_snapshot] whatever the disk does, and the value
    returned when the write succeeds.  Every row of the batch carries
    the one time stamp formatted from the clock read by the call.  The
    symbol of a row is [str.upper] of the asset's symbol: for a symbol
    of ASCII characters it has the same length, each letter a to z is
    replaced by its capital and every other character is kept, so that
    no letter a to z is left.  An asset without the 24h change gets the
    change [0.0]. *)
Theorem capture_builds_one_row_per_asset {lib : library} {laws : lawful lib}
        (coins : list pyval) (w : disk) (clock : datetime) (st : state) :
  Forall asset coins ->
  exists rows,
    last_snapshot (snd (fetch_crypto_data (Json (PyList coins)) w clock st)) = rows /\
    (w = Writes ->
     fst (fetch_crypto_data (Json (PyList coins)) w clock st) = Return rows) /\
    length rows = length coins /\
    (forall r, In r rows -> row_time r = strftime clock) /\
    forall i d, nth_error coins i = Some (PyDict d) ->
      exists r, nth_error rows i = Some r /\
        (forall s, dict_lookup d "symbol" = Some (PyStr s) ->
           row_symbol r = str_upper s /\
           (is_ascii s = true ->
            String.length (row_symbol r) = String.length s /\
            (forall j c, char_at s j = Some c ->
                         char_at (row_symbol r) j = Some (capital c)) /\
            (forall j c, char_at (row_symbol r) j = Some c ->
                         ((97 <=? N_of_ascii c) && (N_of_ascii c <=? 122))%N = false))) /\
        (dict_lookup d "price_change_percentage_24h" = None ->
         row_change r = PyFloat 0).
Proof.
  intros Hcoins.
  destruct (mapM_total (coin_row (strftime clock)) coins) as [rows Hrows].
  { intros a Ha; apply coin_row_asset.
    rewrite Forall_forall in Hcoins; auto. }
  exists rows.
  assert (Hbatch : batch_of (Json (PyList coins)) clock = Some rows)
    by (unfold batch_of, build_rows; simpl; rewrite Hrows; reflexivity).
  assert (Hnth : forall i d, nth_error coins i = Some (PyDict d) ->
            exists r, nth_error rows i = Some r /\
                      coin_row (strftime clock) (PyDict d) = Return r)
    by (intros i d Hi; exact (mapM_nth _ _ Hrows _ Hi)).
  split; [apply fetch_cache, Hbatch|].
  split; [intros ->; rewrite (fetch_success _ _ st Hbatch); reflexivity|].
  split; [exact (mapM_length _ _ Hrows)|].
  split.
  - intros r Hr. destruct (In_nth_error _ _ Hr) as [i Hi].
    assert (Hlen : (i < length coins)%nat).
    { rewrite <- (mapM_length _ _ Hrows). apply nth_error_Some; congruence. }
    destruct (nth_error coins i) as [coin|] eqn:Hc;
      [|apply nth_error_None in Hc; lia].
    destruct (mapM_nth _ _ Hrows _ Hc) as [r' [Hr' Hrow]].
    assert (r' = r) by congruence; subst r'.
    assert (Ha : asset coin)
      by (rewrite Forall_forall in Hcoins; eapply Hcoins, nth_error_In; eauto).
    destruct Ha as [d [-> _]].
    apply coin_row_fields in Hrow; tauto.
  - intros i d Hi. destruct (Hnth i d Hi) as [r [Hr Hrow]].
    exists r; split; [exact Hr|].
    apply coin_row_fields in Hrow.
    destruct Hrow as (_ & _ & Hsym & _ & Hchange & _).
    rewrite (dict_get_lookup d "symbol") in Hsym.
    rewrite (dict_get_lookup d "price_change_percentage_24h") in Hchange.
    split.
    + intros s Hs; rewrite Hs in Hsym; simpl in Hsym.
      assert (Heq : row_symbol r = str_upper s) by congruence.
      split; [exact Heq|]. intros Hascii.
      rewrite Heq, (str_upper_ascii s Hascii).
      split; [apply upper_length|]. split.
      * intros j c Hj; rewrite char_at_upper, Hj; reflexivity.
      * intros j c Hj; rewrite char_at_upper in Hj.
        destruct (char_at s j) as [c0|]; [|discriminate].
        inversion Hj; apply capital_not_lower.
    + intros Hnone; rewrite Hnone in Hchange; exact Hchange.
Qed.

Lemma sample_coins_are_assets : Forall asset sample_coins.
Proof.
  repeat constructor.
  - eexists; split; [reflexivity|]; right; eexists; reflexivity.
  - eexists; split; [reflexivity|]; right; eexists; reflexivity.
Qed.

Lemma capture_builds_one_row_per_asset_witness :
  Forall asset sample_coins /\
  exists rows,
    fst (fetch_crypto_data (lib := reference_library) (Json (PyList sample_coins))
                           Writes sample_clock sample_state) = Return rows /\
    length rows = length sample_coins /\
    map row_symbol rows = ["BTC"; "ETH"].
Proof.
  split; [exact sample_coins_are_assets|].
  destruct (@capture_builds_one_row_per_asset reference_library reference_lawful
              sample_coins Writes sample_clock sample_state sample_coins_are_assets)
    as [rows (H0 & H1 & H2 & _)].
  exists rows; split; [exact (H1 eq_refl)|]. split; [exact H2|].
  rewrite <- H0; vm_compute; reflexivity.
Defined.




(** C9.  Normalisation of one asset whose [symbol] is absent or a string:
    a 24h change that is present but null, and more generally any falsy
    one, gives the change [0.0], as an absent one does, while a truthy
    change is kept; an absent [name] or [symbol] gives the empty string;
    an absent [total_volume] gives the integer [0], which is not the
    float [0.0]. *)
Theorem normalization_defaults {lib : library} {laws : lawful lib}
        (now : string) (d : list (string * pyval)) :
  dict_lookup d "symbol" = None \/ (exists s, dict_lookup d "symbol" = Some (PyStr s)) ->
  exists r, coin_row now (PyDict d) = Return r /\
    (dict_lookup d "price_change_percentage_24h" = Some PyNone ->
     row_change r = PyFloat 0) /\
    (forall v, dict_lookup d "price_change_percentage_24h" = Some v ->
               row_change r = if truthy v then v else PyFloat 0) /\
    (dict_lookup d "price_change_percentage_24h" = None -> row_change r = PyFloat 0) /\
    (dict_lookup d "name" = None -> row_name r = PyStr "") /\
    (dict_lookup d "symbol" = None -> row_symbol r = "") /\
    (dict_lookup d "total_volume" = None -> row_volume r = PyInt 0) /\
    PyInt 0 <> PyFloat 0.
Proof.
  intros Hsym.
  destruct (@coin_row_asset lib now (PyDict d)) as [r Hr].
  { exists d; split; [reflexivity|exact Hsym]. }
  exists r; split; [exact Hr|].
  apply coin_row_fields in Hr.
  destruct Hr as (_ & Hname & Hs & _ & Hchange & Hvolume).
  rewrite dict_get_lookup in Hname, Hs, Hchange, Hvolume.
  repeat split.
  - intros H; rewrite H in Hchange; exact Hchange.
  - intros v H; rewrite H in Hchange; exact Hchange.
  - intros H; rewrite H in Hchange; exact Hchange.
  - intros H; rewrite H in Hname; exact Hname.
  - intros H; rewrite H in Hs; simpl in Hs.
    rewrite (str_upper_ascii "" eq_refl) in Hs; simpl in Hs; congruence.
  - intros H; rewrite H in Hvolume; exact Hvolume.
  - discriminate.
Qed.

Lemma normalization_defaults_witness :
  exists r,
    coin_row (lib := reference_library) "2024-03-09 14:05:30"
             (PyDict [("current_price", PyInt 5);
                      ("price_change_percentage_24h", PyNone)]) = Return r /\
    row_change r = PyFloat 0 /\ row_name r = PyStr "" /\
    row_symbol r = "" /\ row_volume r = PyInt 0.
Proof.
  destruct (@normalization_defaults reference_library reference_lawful
              "2024-03-09 14:05:30"
              [("current_price", PyInt 5); ("price_change_percentage_24h", PyNone)]
              (or_introl eq_refl))
    as [r (H & Hnull & _ & _ & Hname & Hsym & Hvol & _)].
  exists r. split; [exact H|].
  split; [exact (Hnull eq_refl)|].
  split; [exact (Hname eq_refl)|].
  split; [exact (Hsym eq_refl)|exact (Hvol eq_refl)].
Defined.

(** ** The history file is append-only *)


Lemma columns_cases (rows : list row) :
  columns rows = match rows with
                 | [] => []
                 | _ :: _ => ["time"; "name"; "symbol"; "price"; "change"; "volume"]
                 end.
Proof. reflexivity. Qed.





(** ** Reading the history file *)

Lemma rows_of_data (rows : list row) : rows_of (map DataLine rows) = Some rows.
Proof.
  induction rows as [|r rows IH]; simpl; [reflexivity|].
  rewrite IH; reflexivity.
Qed.

Lemma filter_not_blank (rows : list row) :
  filter (fun l => negb (is_blank l)) (map DataLine rows) = map DataLine rows.
Proof. induction rows; simpl; congruence. Qed.

Lemma read_csv_file_of {lib : library} (rows : list row) :
  read_csv (file_of rows) = Frame (read_cells rows).
Proof.
  unfold read_csv, file_of.
  cbn [filter is_blank csv_columns negb].
  rewrite filter_not_blank, rows_of_data.
  reflexivity.
Qed.

(** A file created by a capture of at least one asset, and grown by any
    run, holds the header and the rows of the batches written. *)
Lemma run_file_of {lib : library} (events : list event) (first : list row)
      (rest : list (list row)) :
  appended events = first :: rest -> first <> [] ->
  CSV_FILE (run events (mkState [] None)) = Some (file_of (concat (appended events))).
Proof.
  intros Hs Hne; rewrite run_file, Hs; cbn [CSV_FILE grown].
  destruct first; [congruence|reflexivity].
Qed.

(** ** The text order of the column [time] *)
Lemma leb_refl (a : string) : String.leb a a = true.
Proof. destruct (String.leb_total a a); assumption. Qed.

Lemma leb_trans (a b c : string) :
  String.leb a b = true -> String.leb b c = true -> String.leb a c = true.
Proof.
  unfold String.leb.
  destruct (String.compare a b) eqn:Hab; try discriminate; intros _.
  - apply String.compare_eq_iff in Hab; subst; auto.
  - destruct (String.compare b c) eqn:Hbc; try discriminate; intros _.
    + apply String.compare_eq_iff in Hbc; subst; rewrite Hab; reflexivity.
    + apply String_as_OT.cmp_lt in Hab, Hbc.
      pose proof (String_as_OT.lt_trans _ _ _ Hab Hbc) as Hac.
      apply String_as_OT.cmp_lt in Hac; unfold String_as_OT.cmp in Hac.
      rewrite Hac; reflexivity.
Qed.

Lemma ltb_not_leb (a b : string) : String.ltb a b = true -> String.leb b a = false.
Proof.
  unfold String.ltb, String.leb; rewrite (String.compare_antisym b a).
  destruct (String.compare a b); simpl; congruence.
Qed.

Lemma str_max_cases (a b : string) :
  (str_max a b = a \/ str_max a b = b) /\
  String.leb a (str_max a b) = true /\ String.leb b (str_max a b) = true.
Proof.
  unfold str_max, String.ltb.
  destruct (String.compare a b) eqn:Hab.
  - apply String.compare_eq_iff in Hab; subst; rewrite leb_refl; auto.
  - rewrite leb_refl; unfold String.leb; rewrite Hab; auto.
  - rewrite leb_refl; unfold String.leb; rewrite (String.compare_antisym b a), Hab; auto.
Qed.

Lemma fold_str_max (rest : list string) (x : string) :
  In (fold_left str_max rest x) (x :: rest) /\
  forall y, In y (x :: rest) -> String.leb y (fold_left str_max rest x) = true.
Proof.
  revert x; induction rest as [|b rest IH]; intros x; simpl.
  - split; [auto|]. intros y [<- | []]; apply leb_refl.
  - destruct (IH (str_max x b)) as [Hin Hle].
    destruct (str_max_cases x b) as (Hcase & Hx & Hb).
    split.
    + destruct Hin as [Hin | Hin]; [|auto].
      rewrite <- Hin; destruct Hcase as [-> | ->]; auto.
    + intros y [<- | [<- | Hy]].
      * eapply leb_trans; [exact Hx|]. apply Hle; left; reflexivity.
      * eapply leb_trans; [exact Hb|]. apply Hle; left; reflexivity.
      * apply Hle; right; exact Hy.
Qed.

Lemma column_max_spec (l : list string) (m : string) :
  column_max l = Some m ->
  In m l /\ forall y, In y l -> String.leb y m = true.
Proof.
  destruct l as [|x rest]; simpl; [discriminate|].
  intros H; inversion H; subst; apply fold_str_max.
Qed.


Lemma filter_ext_in_rows (f g : frame_row -> bool) (rows : list frame_row) :
  (forall r, In r rows -> f r = g r) -> filter f rows = filter g rows.
Proof.
  induction rows as [|r rows IH]; simpl; intros H; [reflexivity|].
  rewrite (H r (or_introl eq_refl)), IH; [reflexivity|].
  intros; apply H; auto.
Qed.


(** ** The symbol of a chart *)


Lemma matches_eq_nocase {lib : library} {laws : lawful lib}
      (symbol s : string) (r : frame_row) :
  cell_symbol r = Text s -> is_ascii s = true -> is_ascii symbol = true ->
  matches symbol r = eq_nocase s symbol.
Proof.
  intros Hs Ha Hb; unfold matches; rewrite Hs.
  rewrite (str_upper_ascii s Ha), (str_upper_ascii symbol Hb), eq_nocase_upper.
  reflexivity.
Qed.



Lemma sample_file_frame :
  read_csv (lib := reference_library) (file_of sample_rows) = Frame sample_frame.
Proof. reflexivity. Qed.



(** ** The latest snapshot *)

Lemma text_column_map (df : list frame_row) :
  (forall r, In r df -> exists t, cell_time r = Text t) ->
  text_column (map cell_time df) = Some (map time_text df).
Proof.
  induction df as [|r df IH]; intros H; [reflexivity|].
  destruct (H r (or_introl eq_refl)) as [t Ht].
  cbn [map text_column]; unfold time_text at 1; rewrite Ht.
  rewrite IH by (intros; apply H; right; assumption). reflexivity.
Qed.

Lemma time_text_cell (r : frame_row) (t : string) :
  cell_time r = Text t -> time_text r = t.
Proof. unfold time_text; intros ->; reflexivity. Qed.

Lemma at_time_text (df : list frame_row) (m : string) :
  (forall r, In r df -> exists t, cell_time r = Text t) ->
  filter (at_time (Some m)) df = filter (has_time m) df.
Proof. intros _; apply filter_ext_in_rows; intros r _; reflexivity. Qed.

(** What [ppt] serves on a frame whose column [time] holds strings. *)
Lemma ppt_served {lib : library} (content : list line) (df : list frame_row) :
  read_csv content = Frame df ->
  (forall r, In r df -> exists t, cell_time r = Text t) ->
  ppt (Some content)
  = Served {| slide_title :=
                "Crypto Report - " ++
                match column_max (map time_text df) with
                | Some t => t
                | None => "nan"
                end;
              table_header := ["name"; "symbol"; "price"; "change"; "volume"];
              table_rows :=
                map project (filter (at_time (column_max (map time_text df))) df) |}.
Proof.
  intros Hread Htext; unfold ppt; rewrite Hread, (text_column_map _ Htext).
  reflexivity.
Qed.

(** C3.  On a store that holds at least one row, the times being read as
    text, [ppt] answers with the table of exactly the rows whose time is
    the maximum of the column [time] (a time of the store that no other
    exceeds, in the order in which the export compares the stored
    times), in the order of the store, each with its cells of the
    columns name, symbol, price, change and volume as they are read from
    the file, the time being dropped.  In particular, when the rows are
    at two times [t1 < t2], the table holds exactly the rows at [t2]. *)
Theorem latest_snapshot_is_max_time_rows {lib : library}
        (content : list line) (df : list frame_row) :
  read_csv content = Frame df ->
  df <> [] ->
  (forall r, In r df -> exists t, cell_time r = Text t) ->
  exists maxTime s,
    ppt (Some content) = Served s /\
    In (Text maxTime) (map cell_time df) /\
    (forall r t, In r df -> cell_time r = Text t -> String.leb t maxTime = true) /\
    table_header s = ["name"; "symbol"; "price"; "change"; "volume"] /\
    table_rows s
    = map (fun r => {| view_name := cell_name r; view_symbol := cell_symbol r;
                       view_price := cell_price r; view_change := cell_change r;
                       view_volume := cell_volume r |})
          (filter (has_time maxTime) df) /\
    forall t1 t2,
      String.ltb t1 t2 = true ->
      (forall r, In r df -> cell_time r = Text t1 \/ cell_time r = Text t2) ->
      (exists r, In r df /\ cell_time r = Text t2) ->
      table_rows s
      = map (fun r => {| view_name := cell_name r; view_symbol := cell_symbol r;
                         view_price := cell_price r; view_change := cell_change r;
                         view_volume := cell_volume r |})
            (filter (has_time t2) df).
Proof.
  intros Hread Hne Htext.
  destruct (column_max (map time_text df)) as [m|] eqn:Hmax.
  2:{ destruct df; [congruence|discriminate]. }
  destruct (column_max_spec _ Hmax) as [Hin Hle].
  exists m; eexists; split.
  { rewrite (ppt_served _ Hread Htext), Hmax; reflexivity. }
  cbn [table_header table_rows].
  split.
  { apply in_map_iff in Hin; destruct Hin as (r & Hr & Hrin).
    apply in_map_iff; exists r; split; [|exact Hrin].
    destruct (Htext r Hrin) as [t Ht].
    rewrite Ht; rewrite (time_text_cell _ Ht) in Hr; congruence. }
  split.
  { intros r t Hr Ht; rewrite <- (time_text_cell _ Ht); apply Hle, in_map, Hr. }
  split; [reflexivity|].
  rewrite (@at_time_text df m Htext).
  split; [reflexivity|].
  intros t1 t2 Hlt Htimes [r2 [Hr2 Ht2]].
  assert (Hm : m = t2).
  { apply in_map_iff in Hin; destruct Hin as [r [Hr Hrin]].
    destruct (Htimes r Hrin) as [H1 | H2];
      [|rewrite (time_text_cell _ H2) in Hr; congruence].
    assert (Hle2 : String.leb t2 m = true)
      by (rewrite <- (time_text_cell _ Ht2); apply Hle, in_map, Hr2).
    assert (Hm1 : m = t1) by (rewrite (time_text_cell _ H1) in Hr; congruence).
    rewrite Hm1, (ltb_not_leb _ _ Hlt) in Hle2; discriminate. }
  rewrite Hm; reflexivity.
Qed.

Lemma sample_frame_text : forall r, In r sample_frame -> exists t, cell_time r = Text t.
Proof.
  intros r Hr; vm_compute in Hr.
  each_member Hr ltac:(eexists; reflexivity).
Qed.

(** In the sample the provider sent the price 64000 as an integer and
    no name was missing; the table shows the price as the float that
    pandas reads in a column that also holds 3200.5. *)
Lemma latest_snapshot_is_max_time_rows_witness :
  read_csv (lib := reference_library) (file_of sample_rows) = Frame sample_frame /\
  sample_frame <> [] /\
  (forall r, In r sample_frame -> exists t, cell_time r = Text t) /\
  exists s,
    ppt (lib := reference_library) (Some (file_of sample_rows)) = Served s /\
    table_rows s
    = [ mkView (Text "Bitcoin") (Text "BTC") (Float 64000) (Float (-3 # 2)) (Int 1000);
        mkView (Text "Ethereum") (Text "ETH") (Float (6401 # 2)) (Float 0) (Int 0) ].
Proof.
  assert (Hne : sample_frame <> []) by (vm_compute; discriminate).
  split; [exact sample_file_frame|]. split; [exact Hne|].
  split; [exact sample_frame_text|].
  destruct (@latest_snapshot_is_max_time_rows reference_library (file_of sample_rows)
              sample_frame sample_file_frame Hne sample_frame_text)
    as (m & s & Hs & _ & _ & _ & _ & H2).
  exists s; split; [exact Hs|].
  rewrite (H2 "2024-03-09 14:05:30" "2024-03-09 14:06:30").
  - vm_compute; reflexivity.
  - reflexivity.
  - intros r Hr; vm_compute in Hr.
    each_member Hr ltac:(vm_compute; auto).
  - exists (nth 3 sample_frame (mkFrameRow NaN NaN NaN NaN NaN NaN)).
    split; vm_compute; auto.
Defined.

(** ** Text order and chronological order of time stamps *)

Lemma lexc_assoc (a b c : comparison) : lexc (lexc a b) c = lexc a (lexc b c).
Proof. destruct a; reflexivity. Qed.

Lemma lexc_eq_r (a : comparison) : lexc a Eq = a.
Proof. destruct a; reflexivity. Qed.

Lemma string_compare_cons (a b : ascii) (s t : string) :
  String.compare (String a s) (String b t) = lexc (Ascii.compare a b) (String.compare s t).
Proof. simpl; destruct (Ascii.compare a b); reflexivity. Qed.

Lemma digit_val_range (c : ascii) (d : Z) : digit_val c = Some d -> 0 <= d <= 9.
Proof.
  unfold digit_val.
  destruct (48 <=? Z.of_N (N_of_ascii c)) eqn:H1;
    destruct (Z.of_N (N_of_ascii c) <=? 57) eqn:H2; simpl; try discriminate.
  intros H; inversion H; lia.
Qed.

Lemma digit_val_compare (a b : ascii) (x y : Z) :
  digit_val a = Some x -> digit_val b = Some y -> Ascii.compare a b = (x ?= y).
Proof.
  unfold digit_val, Ascii.compare.
  destruct ((48 <=? Z.of_N (N_of_ascii a)) && (Z.of_N (N_of_ascii a) <=? 57));
    [|discriminate].
  destruct ((48 <=? Z.of_N (N_of_ascii b)) && (Z.of_N (N_of_ascii b) <=? 57));
    [|discriminate].
  intros Hx Hy; inversion Hx; inversion Hy; subst.
  rewrite <- N2Z.inj_compare.
  symmetry; unfold Z.sub.
  rewrite !(Z.add_comm _ (- 48)); apply Z.add_compare_mono_l.
Qed.

(** Two numbers written in a radix compare as their digits do, the high
    one first. *)
Lemma radix_compare (k a b c d : Z) :
  0 <= b < k -> 0 <= d < k ->
  (k * a + b ?= k * c + d) = lexc (a ?= c) (b ?= d).
Proof.
  intros Hb Hd.
  destruct (Z.compare_spec a c) as [-> | Hlt | Hgt]; simpl.
  - apply Z.add_compare_mono_l.
  - apply Z.compare_lt_iff; nia.
  - apply Z.compare_gt_iff; nia.
Qed.

Lemma digits2_compare (s t s' t' : string) (x y : Z) :
  digits2 s = Some (x, s') -> digits2 t = Some (y, t') ->
  String.compare s t = lexc (x ?= y) (String.compare s' t') /\
  0 <= x < 100 /\ 0 <= y < 100.
Proof.
  destruct s as [|a1 [|a2 s0]]; try discriminate.
  destruct t as [|b1 [|b2 t0]]; try discriminate.
  unfold digits2.
  destruct (digit_val a1) as [x1|] eqn:Ha1; [|discriminate].
  destruct (digit_val a2) as [x2|] eqn:Ha2; [|discriminate].
  destruct (digit_val b1) as [y1|] eqn:Hb1; [|discriminate].
  destruct (digit_val b2) as [y2|] eqn:Hb2; [|discriminate].
  intros Hs Ht.
  assert (x = 10 * x1 + x2) by congruence; assert (s' = s0) by congruence.
  assert (y = 10 * y1 + y2) by congruence; assert (t' = t0) by congruence.
  subst x y s' t'; clear Hs Ht.
  pose proof (digit_val_range _ Ha1). pose proof (digit_val_range _ Ha2).
  pose proof (digit_val_range _ Hb1). pose proof (digit_val_range _ Hb2).
  split; [|lia].
  rewrite !string_compare_cons.
  rewrite (digit_val_compare _ _ Ha1 Hb1), (digit_val_compare _ _ Ha2 Hb2).
  rewrite radix_compare by lia.
  rewrite lexc_assoc; reflexivity.
Qed.

Lemma digits4_compare (s t s' t' : string) (x y : Z) :
  digits4 s = Some (x, s') -> digits4 t = Some (y, t') ->
  String.compare s t = lexc (x ?= y) (String.compare s' t').
Proof.
  unfold digits4.
  destruct (digits2 s) as [[hi1 r1]|] eqn:H1; [|discriminate].
  destruct (digits2 r1) as [[lo1 r1']|] eqn:H2; [|discriminate].
  destruct (digits2 t) as [[hi2 r2]|] eqn:H3; [|discriminate].
  destruct (digits2 r2) as [[lo2 r2']|] eqn:H4; [|discriminate].
  intros Hs Ht.
  assert (x = 100 * hi1 + lo1) by congruence; assert (s' = r1') by congruence.
  assert (y = 100 * hi2 + lo2) by congruence; assert (t' = r2') by congruence.
  subst x y s' t'; clear Hs Ht.
  destruct (digits2_compare _ _ H1 H3) as (E1 & _ & _).
  destruct (digits2_compare _ _ H2 H4) as (E2 & ? & ?).
  rewrite E1, E2, radix_compare by lia.
  rewrite lexc_assoc; reflexivity.
Qed.

Lemma field_compare (c : ascii) (s t s' t' : string) (x y : Z) :
  field c s = Some (x, s') -> field c t = Some (y, t') ->
  String.compare s t = lexc (x ?= y) (String.compare s' t').
Proof.
  unfold field, expect.
  destruct s as [|a s0]; [discriminate|].
  destruct t as [|b t0]; [discriminate|].
  destruct (Ascii.eqb a c) eqn:Ha; [|discriminate].
  destruct (Ascii.eqb b c) eqn:Hb; [|discriminate].
  apply Ascii.eqb_eq in Ha, Hb; subst a b.
  intros Hs Ht.
  destruct (digits2_compare _ _ Hs Ht) as (E & _ & _).
  rewrite string_compare_cons, E.
  replace (Ascii.compare c c) with Eq; [reflexivity|].
  unfold Ascii.compare; symmetry; apply N.compare_refl.
Qed.

(** Two time stamps of the format compare as text the way their dates
    and times compare. *)
Lemma time_text_order (s t : string) (a b : datetime) :
  parse_time s = Some a -> parse_time t = Some b ->
  String.compare s t = datetime_compare a b.
Proof.
  unfold parse_time.
  destruct (digits4 s) as [[y1 s1]|] eqn:Y1; [|discriminate].
  destruct (field "-" s1) as [[m1 s2]|] eqn:M1; [|discriminate].
  destruct (field "-" s2) as [[d1 s3]|] eqn:D1; [|discriminate].
  destruct (field " " s3) as [[h1 s4]|] eqn:H1; [|discriminate].
  destruct (field ":" s4) as [[i1 s5]|] eqn:I1; [|discriminate].
  destruct (field ":" s5) as [[c1 [|]]|] eqn:C1; try discriminate.
  destruct (digits4 t) as [[y2 t1]|] eqn:Y2; [|discriminate].
  destruct (field "-" t1) as [[m2 t2]|] eqn:M2; [|discriminate].
  destruct (field "-" t2) as [[d2 t3]|] eqn:D2; [|discriminate].
  destruct (field " " t3) as [[h2 t4]|] eqn:H2; [|discriminate].
  destruct (field ":" t4) as [[i2 t5]|] eqn:I2; [|discriminate].
  destruct (field ":" t5) as [[c2 [|]]|] eqn:C2; try discriminate.
  intros Ha Hb; inversion Ha; inversion Hb; subst; clear Ha Hb.
  rewrite (digits4_compare _ _ Y1 Y2), (field_compare _ _ _ M1 M2),
    (field_compare _ _ _ D1 D2), (field_compare _ _ _ H1 H2),
    (field_compare _ _ _ I1 I2), (field_compare _ _ _ C1 C2).
  unfold datetime_compare; simpl; rewrite lexc_eq_r; reflexivity.
Qed.

Lemma datetime_compare_refl (a : datetime) : datetime_compare a a = Eq.
Proof. unfold datetime_compare; rewrite !Z.compare_refl; reflexivity. Qed.

Lemma parse_time_inj (s t : string) (a : datetime) :
  parse_time s = Some a -> parse_time t = Some a -> s = t.
Proof.
  intros Hs Ht; apply String.compare_eq_iff.
  rewrite (time_text_order _ _ Hs Ht); apply datetime_compare_refl.
Qed.

Lemma time_format_parse (s : string) :
  time_format s = true -> exists a, parse_time s = Some a.
Proof.
  unfold time_format; destruct (parse_time s) as [a|]; [eauto|discriminate].
Qed.

Lemma string_compare_refl (s : string) : String.compare s s = Eq.
Proof.
  pose proof (String.compare_antisym s s) as H.
  destruct (String.compare s s); simpl in H; congruence.
Qed.

Lemma string_eqb_compare (s t : string) :
  String.eqb s t = match String.compare s t with Eq => true | _ => false end.
Proof.
  destruct (String.eqb s t) eqn:E.
  - apply String.eqb_eq in E; subst; rewrite string_compare_refl; reflexivity.
  - destruct (String.compare s t) eqn:C; try reflexivity.
    apply String.compare_eq_iff in C; subst.
    rewrite String.eqb_refl in E; discriminate.
Qed.

Lemma stamped_text (r : frame_row) :
  stamped r ->
  cell_time r = Text (time_text r) /\ time_format (time_text r) = true /\
  captured_at r = parse_time (time_text r).
Proof.
  intros (t & Ht & Hfmt); unfold captured_at, time_text; rewrite Ht; auto.
Qed.

(** The latest capture time of the specification is the time of a row
    that no row exceeds in the text order. *)
Lemma max_captured_at_text (rows : list frame_row) :
  (forall r, In r rows -> stamped r) ->
  rows <> [] ->
  exists r, In r rows /\ max_captured_at rows = captured_at r /\
    forall r', In r' rows -> String.leb (time_text r') (time_text r) = true.
Proof.
  induction rows as [|r0 rest IH]; intros Hfmt Hne; [congruence|].
  destruct (stamped_text (Hfmt r0 (or_introl eq_refl))) as (_ & Hf0 & Hc0).
  destruct (time_format_parse _ Hf0) as [t0 Ht0].
  destruct rest as [|r1' rest'].
  - exists r0; simpl; rewrite Hc0, Ht0.
    split; [auto|]. split; [reflexivity|].
    intros r' [<- | []]; apply leb_refl.
  - destruct IH as (r1 & Hin1 & Hmax1 & Hle1);
      [intros r Hr; apply Hfmt; right; exact Hr|discriminate|].
    destruct (stamped_text (Hfmt r1 (or_intror Hin1))) as (_ & Hf1 & Hc1).
    destruct (time_format_parse _ Hf1) as [t1 Ht1].
    change (max_captured_at (r0 :: r1' :: rest'))
      with (match captured_at r0, max_captured_at (r1' :: rest') with
            | Some t, Some m => Some (later t m)
            | Some t, None => Some t
            | None, m => m
            end).
    rewrite Hmax1, Hc0, Hc1, Ht0, Ht1.
    pose proof (time_text_order _ _ Ht0 Ht1) as Hord.
    unfold later; destruct (datetime_compare t0 t1) eqn:Hc.
    + exists r0; split; [left; reflexivity|].
      split; [rewrite Hc0, Ht0; reflexivity|].
      intros r' [<- | Hr']; [apply leb_refl|].
      eapply leb_trans; [apply Hle1, Hr'|].
      apply String.compare_eq_iff in Hord; rewrite Hord; apply leb_refl.
    + exists r1; split; [right; exact Hin1|].
      split; [rewrite Hc1, Ht1; reflexivity|].
      intros r' [<- | Hr']; [unfold String.leb; rewrite Hord; reflexivity|].
      apply Hle1, Hr'.
    + exists r0; split; [left; reflexivity|].
      split; [rewrite Hc0, Ht0; reflexivity|].
      intros r' [<- | Hr']; [apply leb_refl|].
      eapply leb_trans; [apply Hle1, Hr'|].
      unfold String.leb; rewrite (String.compare_antisym (time_text r1)), Hord.
      reflexivity.
Qed.

(** C10.  [ppt] takes the maximum of the column [time] as text.  When
    every time of the store has the format [YYYY-MM-DD HH:MM:SS], this
    maximum is the text of the chronologically latest capture time (the
    maximum [captured_at] of the specification, which no row's time
    exceeds), and the rows the export selects are those the specification
    selects: the table equals [latest_snapshot_spec]. *)
Theorem text_maximum_is_latest_capture {lib : library}
        (content : list line) (df : list frame_row) :
  read_csv content = Frame df ->
  (forall r, In r df -> stamped r) ->
  exists s,
    ppt (Some content) = Served s /\
    table_rows s = latest_snapshot_spec df /\
    match column_max (map time_text df) with
    | Some m => parse_time m
    | None => None
    end = max_captured_at df /\
    forall m, column_max (map time_text df) = Some m ->
      exists latest, parse_time m = Some latest /\
        slide_title s = "Crypto Report - " ++ m /\
        forall r t, In r df -> captured_at r = Some t ->
                    datetime_compare t latest <> Gt.
Proof.
  intros Hread Hfmt.
  assert (Htext : forall r, In r df -> exists t, cell_time r = Text t)
    by (intros r Hr; destruct (Hfmt r Hr) as (t & Ht & _); eauto).
  eexists; split; [apply (ppt_served _ Hread Htext)|].
  cbn [table_rows slide_title].
  destruct df as [|r0 rest] eqn:Hrows.
  { repeat split; discriminate. }
  rewrite <- Hrows in *.
  assert (Hne : df <> []) by (rewrite Hrows; discriminate).
  clear Hrows.
  destruct (column_max (map time_text df)) as [m|] eqn:Hmax.
  2:{ destruct df; [congruence|discriminate]. }
  destruct (column_max_spec _ Hmax) as [Hin Hle].
  destruct (max_captured_at_text Hfmt Hne) as (r & Hr & HM & Hler).
  assert (Hm : m = time_text r).
  { apply String.leb_antisym; [|apply Hle, in_map, Hr].
    apply in_map_iff in Hin; destruct Hin as (rm & <- & Hrm); apply Hler, Hrm. }
  destruct (stamped_text (Hfmt r Hr)) as (_ & Hfr & Hcr).
  destruct (time_format_parse _ Hfr) as [M HMr].
  assert (Hparse : parse_time m = Some M) by (rewrite Hm; exact HMr).
  assert (Hspec : max_captured_at df = Some M)
    by (rewrite HM, Hcr; exact HMr).
  split; [|split].
  - unfold latest_snapshot_spec; rewrite Hspec; f_equal.
    apply filter_ext_in_rows; intros r' Hr'.
    destruct (stamped_text (Hfmt r' Hr')) as (Hc' & Hf' & Hcap').
    destruct (time_format_parse _ Hf') as [t' Ht'].
    unfold at_time, captured_at_is; rewrite Hc', Hcap', Ht'.
    rewrite <- (time_text_order _ _ Ht' Hparse); apply string_eqb_compare.
  - rewrite Hparse, Hspec; reflexivity.
  - intros m' Hm'; inversion Hm'; subst m'.
    exists M; split; [exact Hparse|]. split; [reflexivity|].
    intros r' t' Hr' Ht'.
    destruct (stamped_text (Hfmt r' Hr')) as (_ & _ & Hcap').
    rewrite Hcap' in Ht'.
    rewrite <- (time_text_order _ _ Ht' Hparse).
    pose proof (Hle _ (in_map time_text _ _ Hr')) as Hlem.
    unfold String.leb in Hlem.
    destruct (String.compare (time_text r') m); congruence.
Qed.

Lemma sample_frame_stamped : forall r, In r sample_frame -> stamped r.
Proof.
  intros r Hr; vm_compute in Hr.
  each_member Hr ltac:(eexists; split; [reflexivity|vm_compute; reflexivity]).
Qed.

Lemma text_maximum_is_latest_capture_witness :
  read_csv (lib := reference_library) (file_of sample_rows) = Frame sample_frame /\
  (forall r, In r sample_frame -> stamped r) /\
  exists s,
    ppt (lib := reference_library) (Some (file_of sample_rows)) = Served s /\
    table_rows s = latest_snapshot_spec sample_frame /\
    max_captured_at sample_frame = Some (mkDatetime 2024 3 9 14 6 30).
Proof.
  split; [exact sample_file_frame|]. split; [exact sample_frame_stamped|].
  destruct (@text_maximum_is_latest_capture reference_library (file_of sample_rows)
              sample_frame sample_file_frame sample_frame_stamped)
    as (s & Hs & Ht & _ & _).
  exists s; split; [exact Hs|]. split; [exact Ht|].
  vm_compute; reflexivity.
Defined.

(** ** The rolling volatility *)

Lemma pct_change_from_length (prev : option Q) (ps : list (option Q)) :
  length (pct_change_from prev ps) = length ps.
Proof.
  revert prev; induction ps as [|p ps IH]; intros prev; simpl; [reflexivity|].
  rewrite IH; reflexivity.
Qed.

Lemma pct_change_length (ps : list (option Q)) :
  length (pct_change ps) = length ps.
Proof.
  destruct ps as [|p ps]; simpl; [reflexivity|].
  rewrite pct_change_from_length; reflexivity.
Qed.

Lemma pct_change_head (ps : list (option Q)) :
  ps <> [] -> nth_error (pct_change ps) 0 = Some None.
Proof. destruct ps; [congruence|reflexivity]. Qed.

Lemma pct_change_from_nth (ps : list Q) (prev : Q) (j : nat) :
  Qnum prev <> 0 -> Forall (fun p => Qnum p <> 0) ps -> (j < length ps)%nat ->
  nth_error (pct_change_from (Some prev) (map Some ps)) j
  = Some (Some (nth j ps 0 / nth j (prev :: ps) 0 - 1)%Q).
Proof.
  revert prev j; induction ps as [|p ps IH]; intros prev j Hprev Hall Hj;
    simpl in Hj; [lia|].
  inversion Hall; subst.
  destruct j as [|j]; cbn [map pct_change_from nth_error].
  - unfold one_return.
    destruct (Qnum prev =? 0) eqn:E; [apply Z.eqb_eq in E; contradiction|].
    reflexivity.
  - rewrite IH by (auto; lia). reflexivity.
Qed.

Lemma pct_change_nth (ps : list Q) (j : nat) :
  Forall (fun p => Qnum p <> 0) ps -> (1 <= j < length ps)%nat ->
  nth_error (pct_change (map Some ps)) j = Some (Some (return_at ps j)).
Proof.
  intros Hall Hj.
  destruct ps as [|p ps]; [simpl in Hj; lia|].
  destruct j as [|j]; [lia|].
  inversion Hall; subst.
  cbn [map pct_change nth_error].
  rewrite pct_change_from_nth by (auto; simpl in Hj; lia).
  unfold return_at.
  replace (S j - 1)%nat with j by lia.
  reflexivity.
Qed.

Lemma skipn_cons_nth {A : Type} (d : A) (xs : list A) (k : nat) :
  (k < length xs)%nat -> skipn k xs = nth k xs d :: skipn (S k) xs.
Proof.
  revert k; induction xs as [|x xs IH]; intros k Hk; simpl in Hk; [lia|].
  destruct k as [|k]; [reflexivity|].
  cbn [skipn nth]. apply IH; lia.
Qed.

Lemma firstn_skipn_seq {A : Type} (d : A) (xs : list A) (n k : nat) :
  (k + n <= length xs)%nat ->
  firstn n (skipn k xs) = map (fun j => nth j xs d) (seq k n).
Proof.
  revert k; induction n as [|n IH]; intros k Hk; [reflexivity|].
  rewrite (skipn_cons_nth d) by lia.
  cbn [firstn seq map]. rewrite IH by lia. reflexivity.
Qed.

Lemma all_some_map_some {A B : Type} (g : A -> B) (l : list A) :
  all_some (map (fun j => Some (g j)) l) = Some (map g l).
Proof.
  induction l as [|a l IH]; simpl; [reflexivity|].
  rewrite IH; reflexivity.
Qed.

Lemma nth_error_seq_map {B : Type} (f : nat -> B) (n i : nat) :
  (i < n)%nat -> nth_error (map f (seq 0 n)) i = Some (f i).
Proof.
  intros Hi. rewrite nth_error_map.
  replace (nth_error (seq 0 n) i) with (Some i); [reflexivity|].
  symmetry. rewrite (nth_error_nth' _ 0%nat) by (rewrite length_seq; exact Hi).
  rewrite seq_nth by exact Hi. reflexivity.
Qed.

Lemma rolling_std_length (w : nat) (xs : list (option Q)) :
  length (rolling_std w xs) = length xs.
Proof. unfold rolling_std; rewrite length_map, length_seq; reflexivity. Qed.

Lemma rolling_std_nth (w : nat) (xs : list (option Q)) (i : nat) :
  (i < length xs)%nat ->
  nth_error (rolling_std w xs) i
  = Some (if (S i <? w)%nat then None
          else option_map std (all_some (window w xs i))).
Proof. intros Hi; unfold rolling_std; apply nth_error_seq_map; exact Hi. Qed.

Lemma rolling_vol_length (xs : list (option Q)) :
  length (rolling_vol xs) = length xs.
Proof. unfold rolling_vol; rewrite length_map; apply rolling_std_length. Qed.

(** The first ten entries are undefined, whatever the prices. *)
Lemma rolling_vol_first_ten (prices : list (option Q)) (i : nat) :
  (i < 10)%nat -> (i < length prices)%nat ->
  nth_error (rolling_vol (pct_change prices)) i = Some None.
Proof.
  intros H10 Hi. unfold rolling_vol.
  rewrite nth_error_map, rolling_std_nth by (rewrite pct_change_length; exact Hi).
  destruct (S i <? 10)%nat eqn:E; [reflexivity|].
  apply Nat.ltb_ge in E. assert (i = 9%nat) by lia; subst i.
  unfold window. replace (10 - 10)%nat with 0%nat by lia.
  destruct prices as [|p prices]; [simpl in Hi; lia|].
  reflexivity.
Qed.

(** From the eleventh entry on, the entry is the annualised deviation of
    the ten returns that end there. *)
Lemma rolling_vol_defined (ps : list Q) (i : nat) :
  Forall (fun p => Qnum p <> 0) ps -> (10 <= i < length ps)%nat ->
  nth_error (rolling_vol (pct_change (map Some ps))) i
  = Some (Some (std (map (return_at ps) (seq (i - 9) 10)) * sqrt 252)%R).
Proof.
  intros Hall Hi. unfold rolling_vol.
  assert (Hlen : length (pct_change (map Some ps)) = length ps)
    by (rewrite pct_change_length, length_map; reflexivity).
  rewrite nth_error_map, rolling_std_nth by lia.
  destruct (S i <? 10)%nat eqn:E; [apply Nat.ltb_lt in E; lia|].
  unfold window. replace (S i - 10)%nat with (i - 9)%nat by lia.
  rewrite (firstn_skipn_seq None) by lia.
  rewrite (map_ext_in _ (fun j => Some (return_at ps j))).
  - rewrite all_some_map_some; reflexivity.
  - intros j Hj; apply in_seq in Hj.
    apply nth_error_nth, pct_change_nth; [exact Hall|lia].
Qed.

(** ** The chart *)

(** A column of prices that are all non-zero numbers. *)
Lemma numeric_column (l : list frame_row) :
  (forall r, In r l ->
     exists q, numeric_cell (cell_price r) = Return (Some q) /\ Qnum q <> 0) ->
  exists ps, mapM numeric_cell (map cell_price l) = Return (map Some ps) /\
             Forall (fun p => Qnum p <> 0) ps /\ length ps = length l.
Proof.
  induction l as [|r l IH]; intros H.
  - exists []; simpl; auto.
  - destruct (H r (or_introl eq_refl)) as (q & Hq & Hnz).
    destruct IH as (ps & Hps & Hall & Hlen); [intros; apply H; right; assumption|].
    exists (q :: ps); simpl. rewrite Hq, Hps; simpl.
    repeat split; [constructor; assumption|congruence].
Qed.

Lemma combine_nth_snd {A B : Type} (a : list A) (b : list B) (i : nat) :
  length a = length b ->
  option_map snd (nth_error (combine a b) i) = nth_error b i.
Proof.
  revert b i; induction a as [|x a IH]; intros [|y b] i Hlen; simpl in Hlen;
    try discriminate.
  - destruct i; reflexivity.
  - destruct i as [|i]; simpl; [reflexivity|]. apply IH; congruence.
Qed.

Lemma combine_map_fst {A B : Type} (a : list A) (b : list B) :
  length a = length b -> map fst (combine a b) = a.
Proof.
  revert b; induction a as [|x a IH]; intros [|y b] Hlen; simpl in Hlen;
    try discriminate; [reflexivity|].
  simpl; f_equal; apply IH; congruence.
Qed.

Lemma selected_in {lib : library} {laws : lawful lib}
      (df : list frame_row) (symbol : string) (r : frame_row) :
  In r (selected df symbol) -> In r df /\ matches symbol r = true.
Proof.
  intros Hr; unfold selected in Hr.
  apply (Permutation_in _ (Permutation_sym (sort_values_perm _ _))) in Hr.
  apply filter_In in Hr; exact Hr.
Qed.

Lemma selected_length {lib : library} {laws : lawful lib}
      (df : list frame_row) (symbol : string) :
  length (selected df symbol) = length (filter (matches symbol) df).
Proof.
  unfold selected; symmetry; apply Permutation_length, sort_values_perm.
Qed.

(** A selection that is not empty holds a text: the column [symbol] has
    the accessor [.str]. *)
Lemma selection_has_text {lib : library} (df : list frame_row) (symbol : string) :
  filter (matches symbol) df <> [] -> str_accessor (map cell_symbol df) = true.
Proof.
  intros Hne.
  destruct (filter (matches symbol) df) as [|r sel] eqn:Hsel; [congruence|].
  assert (Hr : In r (filter (matches symbol) df)) by (rewrite Hsel; left; reflexivity).
  apply filter_In in Hr; destruct Hr as [Hin Hm].
  assert (Hex : existsb is_text (map cell_symbol df) = true).
  { apply existsb_exists. exists (cell_symbol r); split.
    - apply in_map, Hin.
    - unfold matches in Hm; destruct (cell_symbol r); try discriminate; reflexivity. }
  unfold str_accessor. destruct (map cell_symbol df); [reflexivity|exact Hex].
Qed.

Lemma all_some_Some {A : Type} (l : list A) : all_some (map Some l) = Some l.
Proof.
  induction l as [|a l IH]; simpl; [reflexivity|]. rewrite IH; reflexivity.
Qed.

Lemma all_some_inv {A : Type} (l : list (option A)) (l' : list A) :
  all_some l = Some l' -> l = map Some l'.
Proof.
  revert l'; induction l as [|[a|] l IH]; intros l' H; simpl in H.
  - inversion H; reflexivity.
  - destruct (all_some l) as [t|]; [|discriminate].
    inversion H; subst. simpl; f_equal; apply IH; reflexivity.
  - discriminate.
Qed.

Lemma forallb_firstn {A : Type} (f : A -> bool) (l : list A) (n : nat) :
  forallb f l = true -> forallb f (firstn n l) = true.
Proof.
  revert n; induction l as [|a l IH]; intros [|n] H; simpl in *; try reflexivity.
  apply andb_true_iff in H; destruct H as [Ha Hl].
  rewrite Ha, (IH n Hl); reflexivity.
Qed.

(** The returns of a series of non-zero prices are all numbers. *)
Lemma returns_defined_clean (ps : list Q) (i : nat) :
  Forall (fun p => Qnum p <> 0) ps ->
  returns_defined (pct_change (map Some ps)) i = true.
Proof.
  intros Hall. unfold returns_defined. apply forallb_firstn.
  apply forallb_forall; intros r Hr.
  destruct (In_nth_error _ _ Hr) as [k Hk].
  assert (Hk' : nth_error (pct_change (map Some ps)) (S k) = Some r)
    by (destruct (pct_change (map Some ps)); [destruct k; discriminate|exact Hk]).
  assert (Hlt : (S k < length ps)%nat).
  { rewrite <- (length_map Some), <- pct_change_length.
    apply nth_error_Some; congruence. }
  rewrite (@pct_change_nth ps (S k) Hall) in Hk' by lia.
  inversion Hk'; reflexivity.
Qed.

Section Numeric.

Context {lib : library}.

Lemma numeric_volatility_length (ps : list Q) :
  length (numeric_volatility ps) = length ps.
Proof. unfold numeric_volatility; rewrite length_map, length_seq; reflexivity. Qed.

Lemma numeric_volatility_nth (ps : list Q) (i : nat) :
  (i < length ps)%nat ->
  nth_error (numeric_volatility ps) i
  = Some match nth i (rolling_vol (pct_change (map Some ps))) None with
         | None => None
         | Some v =>
             if returns_defined (pct_change (map Some ps)) i then Some v
             else tail_volatility ps i
         end.
Proof.
  intros Hi; unfold numeric_volatility.
  exact (nth_error_seq_map _ Hi).
Qed.

(** An entry is missing wherever the window holds a missing return. *)
Lemma numeric_volatility_blank (ps : list Q) (i : nat) :
  (i < length ps)%nat ->
  nth_error (rolling_vol (pct_change (map Some ps))) i = Some None ->
  nth_error (numeric_volatility ps) i = Some None.
Proof.
  intros Hi Hnone. rewrite (numeric_volatility_nth _ Hi).
  rewrite (nth_error_nth _ _ None Hnone). reflexivity.
Qed.

(** On a series of non-zero prices every entry is the statistic of its
    window. *)
Lemma numeric_volatility_clean (ps : list Q) :
  Forall (fun p => Qnum p <> 0) ps ->
  numeric_volatility ps = rolling_vol (pct_change (map Some ps)).
Proof.
  intros Hall. apply nth_error_ext; intros i.
  assert (Hlen : length (rolling_vol (pct_change (map Some ps))) = length ps)
    by (rewrite rolling_vol_length, pct_change_length, length_map; reflexivity).
  destruct (Nat.lt_ge_cases i (length ps)) as [Hi | Hi].
  - rewrite (numeric_volatility_nth _ Hi), (returns_defined_clean i Hall).
    rewrite (nth_error_nth' _ None) by (rewrite Hlen; exact Hi).
    destruct (nth i (rolling_vol (pct_change (map Some ps))) None); reflexivity.
  - assert (H1 : nth_error (numeric_volatility ps) i = None)
      by (apply nth_error_None; rewrite numeric_volatility_length; exact Hi).
    assert (H2 : nth_error (rolling_vol (pct_change (map Some ps))) i = None)
      by (apply nth_error_None; rewrite Hlen; exact Hi).
    congruence.
Qed.

(** What [chart] serves for a symbol whose prices are all present, the
    price column being numeric. *)
Lemma chart_served_numeric (content : list line) (df : list frame_row)
      (symbol : string) (column prices : list (option Q)) (ps : list Q) :
  read_csv content = Frame df ->
  filter (matches symbol) df <> [] ->
  mapM numeric_cell (map cell_price df) = Return column ->
  mapM numeric_cell (map cell_price (selected df symbol)) = Return prices ->
  all_some prices = Some ps ->
  chart (Some content) symbol
  = Served {| title := str_upper symbol ++ " Volatility";
              points := combine (map cell_time (selected df symbol))
                                (numeric_volatility ps) |}.
Proof.
  intros Hread Hne Hcol Hprices Hall.
  unfold chart; rewrite Hread, (selection_has_text _ _ Hne).
  unfold selected in Hprices |- *.
  destruct (filter (matches symbol) df) as [|r sel] eqn:Hsel; [congruence|].
  unfold volatility; rewrite Hcol, Hprices; cbn [bind]. rewrite Hall. reflexivity.
Qed.

Lemma chart_served (content : list line) (df : list frame_row)
      (symbol : string) (column : list (option Q)) (ps : list Q) :
  read_csv content = Frame df ->
  filter (matches symbol) df <> [] ->
  mapM numeric_cell (map cell_price df) = Return column ->
  mapM numeric_cell (map cell_price (selected df symbol)) = Return (map Some ps) ->
  Forall (fun p => Qnum p <> 0) ps ->
  chart (Some content) symbol
  = Served {| title := str_upper symbol ++ " Volatility";
              points := combine (map cell_time (selected df symbol))
                                (rolling_vol (pct_change (map Some ps))) |}.
Proof.
  intros Hread Hne Hcol Hprices Hall.
  rewrite <- (numeric_volatility_clean Hall).
  exact (@chart_served_numeric _ _ _ _ _ _ Hread Hne Hcol Hprices (all_some_Some ps)).
Qed.

End Numeric.

(** C1, as the code has it.  For a symbol with [L >= 1] rows in the
    store, its prices being non-zero numbers and the price column of the
    store being numeric, the volatility series of [chart] has exactly
    [L] entries; the entries at positions 0..9 (the first ten) are
    undefined; and the entry at position 10 and at every later position
    is defined: it is the sample standard deviation of the ten returns
    [price[j]/price[j-1] - 1] that end at that position, times the
    square root of 252.  The prices are those of the rows of the symbol,
    each once, in the order [sort_values] gives them, which is the order
    of their times when these are time stamps; the points carry the
    times of these rows. *)
Theorem volatility_series_window {lib : library} {laws : lawful lib}
        (content : list line) (df : list frame_row) (symbol : string) :
  read_csv content = Frame df ->
  (forall r, In r df -> exists c, numeric_cell (cell_price r) = Return c) ->
  (forall r, In r df -> matches symbol r = true ->
     exists q, numeric_cell (cell_price r) = Return (Some q) /\ Qnum q <> 0) ->
  filter (matches symbol) df <> [] ->
  exists fig ps,
    chart (Some content) symbol = Served fig /\
    mapM numeric_cell (map cell_price (selected df symbol)) = Return (map Some ps) /\
    Permutation (filter (matches symbol) df) (selected df symbol) /\
    (Forall stamped (filter (matches symbol) df) -> Sorted time_le (selected df symbol)) /\
    map fst (points fig) = map cell_time (selected df symbol) /\
    length (points fig) = length (filter (matches symbol) df) /\
    length ps = length (points fig) /\
    (forall i, (i < 10)%nat -> (i < length ps)%nat ->
       option_map snd (nth_error (points fig) i) = Some None) /\
    (forall i, (10 <= i < length ps)%nat ->
       option_map snd (nth_error (points fig) i)
       = Some (Some (std (map (return_at ps) (seq (i - 9) 10)) * sqrt 252)%R)).
Proof.
  intros Hread Hcolumn Hnum Hne.
  destruct (mapM_total numeric_cell (map cell_price df)) as [col Hcol].
  { intros c Hc; apply in_map_iff in Hc. destruct Hc as (r & <- & Hr); auto. }
  destruct (numeric_column (selected df symbol)) as (ps & Hps & Hall & Hlen).
  { intros r Hr. apply selected_in in Hr; destruct Hr; auto. }
  pose proof (selected_length df symbol) as Hsel.
  assert (Hvol : length (map cell_time (selected df symbol))
                 = length (rolling_vol (pct_change (map Some ps))))
    by (rewrite rolling_vol_length, pct_change_length, !length_map; congruence).
  eexists; exists ps.
  split; [exact (@chart_served _ _ _ _ _ _ Hread Hne Hcol Hps Hall)|].
  cbn [points].
  split; [exact Hps|].
  split; [apply sort_values_perm|].
  split; [apply sort_values_sorted|].
  split; [apply combine_map_fst, Hvol|]. split.
  { rewrite length_combine, <- Hvol, Nat.min_id, length_map; exact Hsel. }
  split.
  { rewrite length_combine, <- Hvol, Nat.min_id, length_map; exact Hlen. }
  split.
  - intros i H10 Hi. rewrite (combine_nth_snd _ _ _ Hvol).
    apply rolling_vol_first_ten; [exact H10|rewrite length_map; exact Hi].
  - intros i Hi. rewrite (combine_nth_snd _ _ _ Hvol).
    apply rolling_vol_defined; assumption.
Qed.

Lemma map_some_inj {A : Type} (a b : list A) : map Some a = map Some b -> a = b.
Proof.
  revert b; induction a as [|x a IH]; intros [|y b] H; simpl in H;
    try discriminate; [reflexivity|].
  injection H as Hx Hrest. f_equal; auto.
Qed.

Lemma twelve_frame_prices :
  forall r, In r twelve_frame ->
    exists q, numeric_cell (cell_price r) = Return (Some q) /\ Qnum q <> 0.
Proof.
  intros r Hr; vm_compute in Hr.
  each_member Hr ltac:(eexists; split; [reflexivity|discriminate]).
Qed.

Lemma twelve_file_frame :
  read_csv (lib := reference_library) (file_of twelve_captures) = Frame twelve_frame.
Proof. reflexivity. Qed.

Lemma volatility_series_window_witness :
  read_csv (lib := reference_library) (file_of twelve_captures) = Frame twelve_frame /\
  (forall r, In r twelve_frame ->
     exists c, numeric_cell (cell_price r) = Return c) /\
  (forall r, In r twelve_frame -> matches (lib := reference_library) "btc" r = true ->
     exists q, numeric_cell (cell_price r) = Return (Some q) /\ Qnum q <> 0) /\
  filter (matches (lib := reference_library) "btc") twelve_frame <> [] /\
  exists fig,
    chart (lib := reference_library) (Some (file_of twelve_captures)) "btc" = Served fig /\
    length (points fig) = 12%nat /\
    option_map snd (nth_error (points fig) 9) = Some None /\
    option_map snd (nth_error (points fig) 11)
    = Some (Some (std (map (return_at btc_prices) (seq 2 10)) * sqrt 252)%R).
Proof.
  assert (Hcol : forall r, In r twelve_frame ->
                   exists c, numeric_cell (cell_price r) = Return c).
  { intros r Hr; destruct (twelve_frame_prices Hr) as (q & Hq & _); eauto. }
  assert (Hnum : forall r, In r twelve_frame ->
                   matches (lib := reference_library) "btc" r = true ->
                   exists q, numeric_cell (cell_price r) = Return (Some q) /\
                             Qnum q <> 0)
    by (intros r Hr _; exact (twelve_frame_prices Hr)).
  assert (Hne : filter (matches (lib := reference_library) "btc") twelve_frame <> [])
    by (vm_compute; discriminate).
  split; [exact twelve_file_frame|].
  split; [exact Hcol|]. split; [exact Hnum|]. split; [exact Hne|].
  destruct (@volatility_series_window reference_library reference_lawful
              (file_of twelve_captures) twelve_frame "btc" twelve_file_frame
              Hcol Hnum Hne)
    as (fig & ps & Hfig & Hps & _ & _ & _ & Hlen & Hlps & Hundef & Hdef).
  assert (Eps : ps = btc_prices).
  { apply map_some_inj.
    assert (E : Return (A := list (option Q)) (map Some ps)
                = Return (map Some btc_prices))
      by (rewrite <- Hps; vm_compute; reflexivity).
    congruence. }
  assert (H12 : length (points fig) = 12%nat) by (rewrite Hlen; reflexivity).
  exists fig. split; [exact Hfig|]. split; [exact H12|]. split.
  - apply Hundef; lia.
  - rewrite <- Eps. apply (Hdef 11%nat); lia.
Defined.

Lemma filter_matches_ascii {lib : library} {laws : lawful lib}
      (df : list frame_row) (symbol : string) :
  is_ascii symbol = true ->
  (forall r s, In r df -> cell_symbol r = Text s -> is_ascii s = true) ->
  filter (matches symbol) df
  = filter (fun r => match cell_symbol r with
                     | Text s => eq_nocase s symbol
                     | _ => false
                     end) df.
Proof.
  intros Hsym Hdf; apply filter_ext_in_rows; intros r Hr.
  destruct (cell_symbol r) as [| | | |s] eqn:Hs;
    try (unfold matches; rewrite Hs; reflexivity).
  apply (@matches_eq_nocase _ _ symbol s r Hs (Hdf r s Hr Hs) Hsym).
Qed.

Lemma twelve_frame_ascii :
  forall r s, In r twelve_frame -> cell_symbol r = Text s -> is_ascii s = true.
Proof.
  intros r s Hr; vm_compute in Hr.
  each_member Hr ltac:(intros H; inversion H; reflexivity).
Qed.

(** C1, as the specification states it, fails at position 9: on the
    store of twelve captures, whatever the library, the series of the
    symbol BTC has twelve entries and the entry at position 9 is
    undefined, the first defined entry being the one at position 10. *)
Lemma volatility_position_9_undefined :
  exists df,
    df = twelve_frame /\
    forall (lib : library) (laws : lawful lib) (content : list line),
      read_csv content = Frame df ->
      exists fig,
        chart (Some content) "BTC" = Served fig /\
        length (points fig) = 12%nat /\
        option_map snd (nth_error (points fig) 9) = Some None /\
        exists v, option_map snd (nth_error (points fig) 10) = Some (Some v).
Proof.
  exists twelve_frame; split; [reflexivity|]. intros lib laws content Hread.
  assert (Hcol : exists col,
             mapM numeric_cell (map cell_price twelve_frame) = Return col)
    by (eexists; vm_compute; reflexivity).
  destruct Hcol as [col Hcol].
  assert (Hfilter : length (filter (matches "BTC") twelve_frame) = 12%nat)
    by (rewrite (filter_matches_ascii twelve_frame "BTC" eq_refl twelve_frame_ascii);
        reflexivity).
  assert (Hne : filter (matches "BTC") twelve_frame <> [])
    by (intros E; rewrite E in Hfilter; discriminate).
  destruct (numeric_column (selected twelve_frame "BTC")) as (ps & Hps & Hall & Hlen).
  { intros r Hr. apply selected_in in Hr; destruct Hr as [Hr _].
    exact (twelve_frame_prices Hr). }
  rewrite selected_length, Hfilter in Hlen.
  assert (Hvol : length (map cell_time (selected twelve_frame "BTC"))
                 = length (rolling_vol (pct_change (map Some ps))))
    by (rewrite rolling_vol_length, pct_change_length, !length_map,
          selected_length; congruence).
  eexists. split; [exact (@chart_served _ _ _ _ _ _ Hread Hne Hcol Hps Hall)|].
  cbn [points]. split; [|split].
  - rewrite length_combine, <- Hvol, Nat.min_id, length_map, selected_length.
    exact Hfilter.
  - rewrite (combine_nth_snd _ _ _ Hvol).
    apply rolling_vol_first_ten; rewrite ?length_map; lia.
  - eexists. rewrite (combine_nth_snd _ _ _ Hvol).
    apply rolling_vol_defined; [exact Hall|lia].
Qed.

(** ** The seven-day feed *)


(** *** Rounding to the nearest double *)























(** ** The time stamps the fetcher writes have the format *)

Lemma digit_val_char (d : Z) : digit_val (digit_char d) = Some (d mod 10).
Proof.
  unfold digit_val, digit_char.
  pose proof (Z.mod_pos_bound d 10 ltac:(lia)) as Hd.
  assert (Hlt : (Z.to_N (48 + d mod 10) < 256)%N)
    by (change 256%N with (Z.to_N 256); apply Z2N.inj_lt; lia).
  rewrite (N_ascii_embedding _ Hlt), Z2N.id by lia.
  destruct (48 <=? 48 + d mod 10) eqn:H1; [|apply Z.leb_gt in H1; lia].
  destruct (48 + d mod 10 <=? 57) eqn:H2; [|apply Z.leb_gt in H2; lia].
  cbn [andb]; f_equal; lia.
Qed.

Lemma digits2_pad2 (n : Z) (rest : string) :
  0 <= n <= 99 -> digits2 (pad2 n rest) = Some (n, rest).
Proof.
  intros Hn; unfold digits2, pad2.
  rewrite !digit_val_char. do 2 f_equal.
  Z.to_euclidean_division_equations; lia.
Qed.

Lemma digits4_pad4 (n : Z) (rest : string) :
  0 <= n <= 9999 -> digits4 (pad4 n rest) = Some (n, rest).
Proof.
  intros Hn; unfold digits4, pad4.
  change (digits2 (String (digit_char (n / 1000))
                     (String (digit_char (n / 100)) (pad2 n rest))))
    with (match digit_val (digit_char (n / 1000)),
                digit_val (digit_char (n / 100)) with
          | Some x, Some y => Some (10 * x + y, pad2 n rest)
          | _, _ => None
          end).
  rewrite !digit_val_char.
  unfold digits2, pad2; rewrite !digit_val_char. do 2 f_equal.
  Z.to_euclidean_division_equations; lia.
Qed.

Lemma field_pad2 (c : ascii) (n : Z) (rest : string) :
  0 <= n <= 99 -> field c (String c (pad2 n rest)) = Some (n, rest).
Proof.
  intros Hn; unfold field, expect.
  rewrite Ascii.eqb_refl. apply digits2_pad2; exact Hn.
Qed.

(** Reading back what [strftime] writes gives the date and time. *)
Lemma parse_strftime (dt : datetime) :
  valid_datetime dt -> parse_time (strftime dt) = Some dt.
Proof.
  intros (Hy & Hm & Hd & Hh & Hi & Hs).
  unfold parse_time, strftime.
  rewrite digits4_pad4 by lia.
  rewrite !field_pad2 by lia.
  destruct dt; reflexivity.
Qed.

(** Every row that a call of the fetcher builds carries a time of the
    format, as long as the clock shows a valid date and time. *)
Lemma batch_times {lib : library} (u : upstream) (clock : datetime) (rows : list row)
      (r : row) :
  batch_of u clock = Some rows -> In r rows -> row_time r = strftime clock.
Proof.
  unfold batch_of. destruct (request_json u) as [data|]; [|discriminate].
  unfold build_rows.
  destruct (py_iter data) as [coins|e]; simpl; [|discriminate].
  destruct (mapM (coin_row (strftime clock)) coins) as [rs|e] eqn:Hrs;
    [|discriminate].
  intros Hb Hin; inversion Hb; subst rs; clear Hb.
  destruct (In_nth_error _ _ Hin) as [i Hi].
  assert (Hlen : (i < length coins)%nat).
  { rewrite <- (mapM_length _ _ Hrs). apply nth_error_Some; congruence. }
  destruct (nth_error coins i) as [coin|] eqn:Hc;
    [|apply nth_error_None in Hc; lia].
  destruct (mapM_nth _ _ Hrs _ Hc) as [r' [Hr' Hrow]].
  assert (r' = r) by congruence; subst r'.
  destruct coin; try discriminate.
  apply coin_row_fields in Hrow. destruct Hrow as [Htime _]. exact Htime.
Qed.

Lemma appended_in_successes {lib : library} (events : list event) (r : row) :
  In r (concat (appended events)) -> In r (concat (successes events)).
Proof.
  induction events as [|e rest IH]; [auto|].
  unfold appended, successes; cbn [flat_map].
  rewrite !concat_app, !in_app_iff.
  intros [H | H]; [left|right; apply IH, H].
  destruct (batch_of (ev_upstream e) (ev_clock e)) as [rows|]; [|destruct H].
  destruct (ev_disk e); [exact H|destruct H].
Qed.

Lemma written_times_have_format {lib : library} (events : list event) (r : row) :
  Forall (fun e => valid_datetime (ev_clock e)) events ->
  In r (concat (successes events)) ->
  time_format (row_time r) = true.
Proof.
  induction events as [|e rest IH]; intros Hvalid Hin; [destruct Hin|].
  inversion Hvalid as [|? ? Hclock Hrest]; subst.
  unfold successes in Hin; cbn [flat_map] in Hin.
  rewrite concat_app in Hin; apply in_app_or in Hin.
  destruct Hin as [Hin | Hin]; [|apply IH; assumption].
  destruct (batch_of (ev_upstream e) (ev_clock e)) as [rows|] eqn:Hb; [|destruct Hin].
  simpl in Hin; rewrite app_nil_r in Hin.
  unfold time_format; rewrite (@batch_times _ _ _ _ _ Hb Hin), (parse_strftime Hclock).
  reflexivity.
Qed.

(** * Further properties

    Properties of the same functions, and of the route [/data], beyond
    those above. *)

(** ** Captures that raise, the cache over a run, a capture of no asset *)

Lemma coin_row_raises {lib : library} (now : string) (coin : pyval) (e : exn) :
  coin_row now coin = Raise e -> e = AttributeError.
Proof.
  unfold coin_row. destruct coin; try (intros H; inversion H; reflexivity).
  destruct (dict_get items "symbol" (PyStr "")); simpl; intros H;
    inversion H; reflexivity.
Qed.

Lemma coin_row_not_asset {lib : library} (now : string) (coin : pyval) :
  ~ asset coin -> coin_row now coin = Raise AttributeError.
Proof.
  intros Hna. destruct (coin_row now coin) as [r|e] eqn:Hrow.
  - exfalso; apply Hna. unfold coin_row in Hrow.
    destruct coin; try discriminate.
    exists items; split; [reflexivity|].
    rewrite dict_get_lookup in Hrow.
    destruct (dict_lookup items "symbol") as [v|]; [|left; reflexivity].
    destruct v; simpl in Hrow; try discriminate. right; eauto.
  - rewrite (coin_row_raises _ _ Hrow); reflexivity.
Qed.

Lemma mapM_raises {A B : Type} (f : A -> result B) (l : list A) (e : exn) :
  (forall a e', f a = Raise e' -> e' = e) ->
  Exists (fun a => f a = Raise e) l -> mapM f l = Raise e.
Proof.
  intros Huniform Hex; induction Hex as [a l Ha | a l Hex IH]; simpl.
  - rewrite Ha; reflexivity.
  - destruct (f a) as [b|e'] eqn:Hfa; simpl.
    + rewrite IH; reflexivity.
    + rewrite (Huniform _ _ Hfa); reflexivity.
Qed.

(** X1.  One malformed asset aborts the whole capture.  When the body is
    a list in which some element is not an asset object (not a
    dictionary, or a dictionary whose [symbol] is present and not a
    string, such as null), [fetch_crypto_data] raises [AttributeError]
    and leaves [last_snapshot] and the history file as they were: the
    well-formed assets of the same response are neither cached nor
    appended. *)
Theorem malformed_asset_aborts_capture {lib : library}
        (coins : list pyval) (w : disk) (clock : datetime) (st : state) :
  Exists (fun coin => ~ asset coin) coins ->
  fetch_crypto_data (Json (PyList coins)) w clock st = (Raise AttributeError, st).
Proof.
  intros Hex. unfold fetch_crypto_data, build_rows; simpl.
  rewrite (@mapM_raises _ _ (coin_row (strftime clock)) coins AttributeError).
  - reflexivity.
  - intros a e'; apply coin_row_raises.
  - apply Exists_exists in Hex. destruct Hex as (c & Hc & Hna).
    apply Exists_exists. exists c; split; [exact Hc|].
    apply coin_row_not_asset; exact Hna.
Qed.

Lemma malformed_asset_aborts_capture_witness :
  Exists (fun coin => ~ asset coin) null_symbol_coins /\
  fetch_crypto_data (lib := reference_library) (Json (PyList null_symbol_coins)) Writes
                    sample_clock sample_state
  = (Raise AttributeError, sample_state).
Proof.
  assert (H : Exists (fun coin => ~ asset coin) null_symbol_coins).
  { apply Exists_cons_tl, Exists_cons_hd.
    intros (d & Hd & Hsym). inversion Hd; subst d.
    destruct Hsym as [Hsym | [s Hsym]]; discriminate. }
  split; [exact H|].
  exact (@malformed_asset_aborts_capture reference_library null_symbol_coins Writes
           sample_clock sample_state H).
Defined.

Lemma last_cons {A : Type} (a d : A) (l : list A) : last (a :: l) d = last l a.
Proof.
  revert a d; induction l as [|b l IH]; intros a d; [reflexivity|].
  change (last (a :: b :: l) d) with (last (b :: l) d).
  rewrite (IH b d), (IH b a). reflexivity.
Qed.

Lemma run_cache {lib : library} (events : list event) (st : state) :
  last_snapshot (run events st) = last (successes events) (last_snapshot st).
Proof.
  revert st; induction events as [|[u w clock] rest IH]; intros st; [reflexivity|].
  cbn [run ev_upstream ev_disk ev_clock]. rewrite IH.
  unfold successes; cbn [flat_map ev_upstream ev_clock].
  destruct (batch_of u clock) as [rows|] eqn:Hb.
  - rewrite (@fetch_cache _ _ w _ st _ Hb); cbn [app].
    symmetry; apply last_cons.
  - rewrite (fetch_no_batch _ w _ st Hb); reflexivity.
Qed.

(** X2.  After any run of calls, [last_snapshot] is the batch of the last
    call that got past the loop (the initial value when none did),
    whatever failed or raised in between; and a request to [/data] whose
    fetch then fails is served exactly that batch, the state staying as
    it is. *)
Theorem data_serves_last_successful_batch {lib : library}
        (events : list event) (st : state)
        (u : upstream) (w : disk) (clock : datetime) :
  request_json u = None ->
  last_snapshot (run events st) = last (successes events) (last_snapshot st) /\
  data u w clock (run events st)
  = (Served (last (successes events) (last_snapshot st)), run events st).
Proof.
  intros Hu. split; [apply run_cache|].
  unfold data, fetch_crypto_data. rewrite Hu, run_cache. reflexivity.
Qed.

Lemma data_serves_last_successful_batch_witness :
  request_json NoResponse = None /\
  data (lib := reference_library) NoResponse Writes sample_clock
       (run (lib := reference_library) sample_events (mkState [] None))
  = (Served (last (successes (lib := reference_library) sample_events) []),
     run (lib := reference_library) sample_events (mkState [] None)) /\
  length (last (successes (lib := reference_library) sample_events) []) = 2%nat.
Proof.
  split; [reflexivity|]. split; [|reflexivity].
  exact (proj2 (@data_serves_last_successful_batch reference_library sample_events
                  (mkState [] None) NoResponse Writes sample_clock eq_refl)).
Defined.

Lemma grown_from_empty_header (batches : list (list row)) :
  grown (Some [Header []]) batches = Some (Header [] :: map DataLine (concat batches)).
Proof. reflexivity. Qed.

(** X16.  A live response that lists no asset is a successful capture of
    zero rows, not a failure: [fetch_crypto_data] answers the empty list
    and replaces [last_snapshot] by it (there is no fallback to the
    previous snapshot).  When no history file existed, the call creates
    one that holds a header line without column names and nothing else;
    [chart] and [ppt] then fail on it with [EmptyDataError] rather than
    answer 404, and no later call writes the column names: the file
    stays that empty header followed by data lines. *)
Theorem capture_of_no_asset_starts_a_headerless_file {lib : library}
        (clock : datetime) (st : state) :
  CSV_FILE st = None ->
  fetch_crypto_data (Json (PyList [])) Writes clock st
  = (Return [], {| last_snapshot := []; CSV_FILE := Some [Header []] |}) /\
  (forall symbol,
     chart (CSV_FILE (snd (fetch_crypto_data (Json (PyList [])) Writes clock st))) symbol
     = Failed EmptyDataError) /\
  ppt (CSV_FILE (snd (fetch_crypto_data (Json (PyList [])) Writes clock st)))
  = Failed EmptyDataError /\
  forall events,
    CSV_FILE (run events (snd (fetch_crypto_data (Json (PyList [])) Writes clock st)))
    = Some (Header [] :: map DataLine (concat (appended events))).
Proof.
  intros Hnone.
  assert (Hfetch : fetch_crypto_data (Json (PyList [])) Writes clock st
                   = (Return [], {| last_snapshot := []; CSV_FILE := Some [Header []] |})).
  { unfold fetch_crypto_data, build_rows; simpl. rewrite Hnone. reflexivity. }
  rewrite Hfetch; cbn [snd CSV_FILE].
  split; [reflexivity|]. split; [reflexivity|]. split; [reflexivity|].
  intros events. rewrite run_file. apply grown_from_empty_header.
Qed.

Lemma capture_of_no_asset_starts_a_headerless_file_witness :
  CSV_FILE (mkState [] None) = None /\
  chart (lib := reference_library)
        (CSV_FILE (snd (fetch_crypto_data (lib := reference_library) (Json (PyList []))
                                          Writes sample_clock (mkState [] None)))) "btc"
  = Failed EmptyDataError /\
  CSV_FILE (run (lib := reference_library) sample_events
                (snd (fetch_crypto_data (lib := reference_library) (Json (PyList []))
                                        Writes sample_clock (mkState [] None))))
  = Some (Header [] :: map DataLine sample_rows).
Proof.
  split; [reflexivity|].
  destruct (@capture_of_no_asset_starts_a_headerless_file reference_library sample_clock
              (mkState [] None) eq_refl) as (_ & Hchart & _ & Hrun).
  split; [exact (Hchart "btc")|exact (Hrun sample_events)].
Defined.

(** ** The export on any file that is read *)

Lemma ppt_never_not_found {lib : library} (content : list line) (message : string) :
  ppt (Some content) <> NotFound message.
Proof.
  unfold ppt.
  destruct (read_csv content) as [df| | |]; try discriminate.
  - destruct (text_column (map cell_time df)); [discriminate|].
    destruct (other_ppt content); discriminate.
  - destruct (other_ppt content); discriminate.
Qed.

Lemma export_size {lib : library} (content : list line) (df : list frame_row) :
  read_csv content = Frame df ->
  (forall r, In r df -> exists t, cell_time r = Text t) ->
  exists s,
    ppt (Some content) = Served s /\
    snd (table_size s) = 5%nat /\
    (fst (table_size s) <= S (length df))%nat /\
    (df <> [] -> (2 <= fst (table_size s))%nat) /\
    (df = [] -> table_size s = (1%nat, 5%nat) /\ slide_title s = "Crypto Report - nan").
Proof.
  intros Hread Htext.
  eexists. split; [exact (ppt_served _ Hread Htext)|].
  unfold table_size; cbn [table_rows table_header fst snd slide_title].
  split; [reflexivity|]. split; [|split].
  - rewrite length_map. apply le_n_S, filter_length_le.
  - intros Hne.
    destruct (column_max (map time_text df)) as [m|] eqn:Hmax.
    2:{ destruct df; [congruence|discriminate]. }
    destruct (column_max_spec _ Hmax) as [Hin _].
    apply in_map_iff in Hin. destruct Hin as (r & Hr & Hrin).
    assert (Hf : In r (filter (at_time (Some m)) df)).
    { apply filter_In; split; [exact Hrin|].
      destruct (Htext r Hrin) as [t Ht].
      rewrite (time_text_cell _ Ht) in Hr; subst t.
      unfold at_time; rewrite Ht. apply String.eqb_refl. }
    rewrite length_map.
    destruct (filter (at_time (Some m)) df); [destruct Hf|simpl; lia].
  - intros ->; split; reflexivity.
Qed.

Lemma read_cells_text {lib : library} {laws : lawful lib} (rows : list row) :
  Forall (fun r => time_format (row_time r) = true) rows ->
  forall c, In c (read_cells rows) -> exists t, cell_time c = Text t.
Proof.
  intros Hformat c Hc.
  apply (in_map cell_time) in Hc. rewrite (read_cells_time Hformat) in Hc.
  apply in_map_iff in Hc. destruct Hc as (r & Hr & _). eauto.
Qed.

(** X6.  [ppt] answers 404 only when the file does not exist: on an
    existing file it never does.  On a file that is read as a frame
    whose times are text, and so on a file holding the header and [rows]
    whose times have the format of the fetcher, it serves a table of
    five columns whose row count, header row included, is at most one
    more than the rows stored, and at least two as soon as a row is
    stored (the export of a non-empty store is never empty); on the
    header alone it serves the header row only, under the title
    "Crypto Report - nan". *)
Theorem export_answers_whenever_file_is_read {lib : library} {laws : lawful lib}
        (rows : list row) :
  Forall (fun r => time_format (row_time r) = true) rows ->
  (forall content message, ppt (Some content) <> NotFound message) /\
  (forall content df,
     read_csv content = Frame df ->
     (forall r, In r df -> exists t, cell_time r = Text t) ->
     exists s,
       ppt (Some content) = Served s /\
       snd (table_size s) = 5%nat /\
       (fst (table_size s) <= S (length df))%nat /\
       (df <> [] -> (2 <= fst (table_size s))%nat) /\
       (df = [] ->
        table_size s = (1%nat, 5%nat) /\ slide_title s = "Crypto Report - nan")) /\
  exists s,
    ppt (Some (file_of rows)) = Served s /\
    snd (table_size s) = 5%nat /\
    (fst (table_size s) <= S (length rows))%nat /\
    (rows <> [] -> (2 <= fst (table_size s))%nat) /\
    (rows = [] -> table_size s = (1%nat, 5%nat) /\ slide_title s = "Crypto Report - nan").
Proof.
  intros Hformat.
  split; [exact ppt_never_not_found|].
  split; [exact export_size|].
  destruct (@export_size _ _ _ (read_csv_file_of rows) (read_cells_text Hformat))
    as (s & Hs & Hcols & Hle & Hne & Hnil).
  pose proof (read_cells_length rows) as Hlen.
  exists s. split; [exact Hs|]. split; [exact Hcols|].
  split; [rewrite <- Hlen; exact Hle|]. split.
  - intros Hrows; apply Hne. intros E; rewrite E in Hlen.
    destruct rows; [congruence|discriminate].
  - intros Hrows; apply Hnil. subst rows.
    destruct (read_cells []); [reflexivity|discriminate].
Qed.

Lemma sample_rows_format :
  Forall (fun r => time_format (row_time r) = true) sample_rows.
Proof. repeat constructor. Qed.

Lemma export_answers_whenever_file_is_read_witness :
  Forall (fun r => time_format (row_time r) = true) sample_rows /\
  exists s,
    ppt (lib := reference_library) (Some (file_of sample_rows)) = Served s /\
    table_size s = (3%nat, 5%nat) /\
    slide_title s = "Crypto Report - 2024-03-09 14:06:30".
Proof.
  split; [exact sample_rows_format|].
  destruct (proj2 (proj2 (@export_answers_whenever_file_is_read reference_library
                            reference_lawful sample_rows sample_rows_format)))
    as (s & Hs & _).
  exists s. split; [exact Hs|].
  assert (E : Served s
              = ppt (lib := reference_library) (Some (file_of sample_rows)))
    by (symmetry; exact Hs).
  vm_compute in E. inversion E; subst s. split; reflexivity.
Defined.

(** ** The order of the history file *)

Lemma strongly_sorted_app {A : Type} (R : A -> A -> Prop) (l1 l2 : list A) :
  StronglySorted R l1 -> StronglySorted R l2 ->
  (forall x y, In x l1 -> In y l2 -> R x y) ->
  StronglySorted R (l1 ++ l2).
Proof.
  induction 1 as [|a l1 Hs IH Hall]; intros H2 Hcross; simpl; [exact H2|].
  constructor.
  - apply IH; [exact H2|]. intros; apply Hcross; [right|]; assumption.
  - apply Forall_app; split; [exact Hall|].
    apply Forall_forall; intros y Hy. apply Hcross; [left; reflexivity|exact Hy].
Qed.

Lemma same_time_sorted (rows : list row) (now : string) :
  (forall r, In r rows -> row_time r = now) -> in_time_order rows.
Proof.
  induction rows as [|r rows IH]; intros H; constructor.
  - apply IH; intros; apply H; right; assumption.
  - apply Forall_forall; intros y Hy.
    rewrite (H r (or_introl eq_refl)), (H y (or_intror Hy)). apply leb_refl.
Qed.

Section Batches.

Variable batches : event -> list (list row).
Hypothesis batches_time :
  forall e r, In r (concat (batches e)) -> row_time r = strftime (ev_clock e).

Lemma written_by (events : list event) (r : row) :
  In r (concat (flat_map batches events)) ->
  exists e, In e events /\ row_time r = strftime (ev_clock e).
Proof.
  induction events as [|e rest IH]; intros Hin; [destruct Hin|].
  cbn [flat_map] in Hin. rewrite concat_app in Hin; apply in_app_or in Hin.
  destruct Hin as [Hin | Hin].
  - exists e; split; [left; reflexivity|exact (batches_time _ _ Hin)].
  - destruct (IH Hin) as (e' & He & Ht). exists e'; split; [right; exact He|exact Ht].
Qed.

Lemma batches_in_time_order (events : list event) :
  Forall (fun e => valid_datetime (ev_clock e)) events ->
  clock_never_goes_back events ->
  in_time_order (concat (flat_map batches events)).
Proof.
  intros Hvalid Hclock.
  induction events as [|e rest IH]; [constructor|].
  inversion Hvalid as [|? ? Hc Hrest]; subst.
  inversion Hclock as [|? ? Hsorted Hafter]; subst.
  cbn [flat_map]. rewrite concat_app.
  apply strongly_sorted_app; [|apply IH; assumption|].
  - exact (same_time_sorted _ (batches_time e)).
  - intros x y Hx Hy.
    rewrite (batches_time _ _ Hx).
    destruct (written_by _ _ Hy) as (e' & He & Ht). rewrite Ht.
    rewrite Forall_forall in Hrest, Hafter.
    unfold String.leb.
    rewrite (time_text_order _ _ (parse_strftime Hc) (parse_strftime (Hrest e' He))).
    specialize (Hafter e' He).
    destruct (datetime_compare (ev_clock e) (ev_clock e')); congruence.
Qed.

End Batches.

Lemma successes_time {lib : library} (e : event) (r : row) :
  In r (concat match batch_of (ev_upstream e) (ev_clock e) with
               | Some rows => [rows]
               | None => []
               end) ->
  row_time r = strftime (ev_clock e).
Proof.
  destruct (batch_of (ev_upstream e) (ev_clock e)) as [rows|] eqn:Hb; [|intros []].
  simpl; rewrite app_nil_r. intros Hin. exact (@batch_times _ _ _ _ _ Hb Hin).
Qed.

Lemma appended_time {lib : library} (e : event) (r : row) :
  In r (concat match batch_of (ev_upstream e) (ev_clock e), ev_disk e with
               | Some rows, Writes => [rows]
               | _, _ => []
               end) ->
  row_time r = strftime (ev_clock e).
Proof.
  destruct (batch_of (ev_upstream e) (ev_clock e)) as [rows|] eqn:Hb; [|intros []].
  destruct (ev_disk e); [|intros []].
  simpl; rewrite app_nil_r. intros Hin. exact (@batch_times _ _ _ _ _ Hb Hin).
Qed.

(** X14.  When the clock shows valid dates and never goes back from one
    call to the next, the rows that the calls of a run build, and so the
    rows that they append to the file, are in non-decreasing order of
    their time stamps, and each time stamp reads back, by the parser of
    the chart, as the clock of the call that wrote it. *)
Theorem history_is_in_time_order {lib : library} (events : list event) :
  Forall (fun e => valid_datetime (ev_clock e)) events ->
  clock_never_goes_back events ->
  in_time_order (concat (successes events)) /\
  in_time_order (concat (appended events)) /\
  forall r, In r (concat (successes events)) ->
    exists e, In e events /\ parse_time (row_time r) = Some (ev_clock e).
Proof.
  intros Hvalid Hclock.
  split; [exact (batches_in_time_order _ successes_time Hvalid Hclock)|].
  split; [exact (batches_in_time_order _ appended_time Hvalid Hclock)|].
  intros r Hr. destruct (written_by _ successes_time _ _ Hr) as (e & He & Ht).
  exists e; split; [exact He|].
  rewrite Forall_forall in Hvalid. rewrite Ht. apply parse_strftime, Hvalid, He.
Qed.

Lemma sample_events_valid : Forall (fun e => valid_datetime (ev_clock e)) sample_events.
Proof. repeat constructor; simpl; lia. Qed.

Lemma sample_events_clock : clock_never_goes_back sample_events.
Proof. repeat constructor; discriminate. Qed.

Lemma history_is_in_time_order_witness :
  Forall (fun e => valid_datetime (ev_clock e)) sample_events /\
  clock_never_goes_back sample_events /\
  in_time_order sample_rows.
Proof.
  split; [exact sample_events_valid|]. split; [exact sample_events_clock|].
  exact (proj1 (@history_is_in_time_order reference_library sample_events
                  sample_events_valid sample_events_clock)).
Defined.

(** ** What a served chart holds *)

Lemma chart_served_inv {lib : library} (content : list line) (df : list frame_row)
      (symbol : string) (fig : figure) :
  read_csv content = Frame df ->
  chart (Some content) symbol = Served fig ->
  exists vol,
    volatility df (selected df symbol) = Return vol /\
    points fig = combine (map cell_time (selected df symbol)) vol.
Proof.
  intros Hread. unfold chart, selected. rewrite Hread.
  destruct (str_accessor (map cell_symbol df)); [|discriminate].
  destruct (filter (matches symbol) df) as [|r sel]; [discriminate|].
  destruct (volatility df (sort_values df (r :: sel))) as [vol|e]; [|discriminate].
  intros H; inversion H; subst; cbn [points].
  exists vol. split; reflexivity.
Qed.

Lemma rolling_vol_nonneg (returns : list (option Q)) (i : nat) (v : R) :
  nth_error (rolling_vol returns) i = Some (Some v) -> (0 <= v)%R.
Proof.
  unfold rolling_vol. rewrite nth_error_map.
  destruct (nth_error (rolling_std 10 returns) i) as [[s|]|] eqn:Hs; simpl;
    try discriminate.
  intros H; inversion H; subst; clear H.
  assert (Hlt : (i < length returns)%nat).
  { rewrite <- (rolling_std_length 10). apply nth_error_Some; congruence. }
  rewrite (rolling_std_nth 10 returns Hlt) in Hs.
  destruct (S i <? 10)%nat; [discriminate|].
  destruct (all_some (window 10 returns i)) as [w|]; simpl in Hs; [|discriminate].
  inversion Hs; subst.
  apply Rmult_le_pos; apply sqrt_pos.
Qed.

Lemma nth_some_error {A : Type} (l : list (option A)) (i : nat) (a : A) :
  nth i l None = Some a -> nth_error l i = Some (Some a).
Proof.
  intros H. destruct (Nat.lt_ge_cases i (length l)) as [Hi | Hi].
  - rewrite (nth_error_nth' l None Hi), H; reflexivity.
  - rewrite nth_overflow in H by exact Hi. discriminate.
Qed.

(** The column [rolling_vol] of a served chart: one entry per row, the
    first ten undefined, none negative. *)
Lemma volatility_series {lib : library} {laws : lawful lib}
      (df sorted : list frame_row) (vol : list (option R)) :
  volatility df sorted = Return vol ->
  length vol = length sorted /\
  (forall i, (i < 10)%nat -> nth_error vol i = None \/ nth_error vol i = Some None) /\
  (forall v, In (Some v) vol -> (0 <= v)%R).
Proof.
  assert (Hother : other_volatility (map cell_price sorted) = Return vol ->
                   length vol = length sorted /\
                   (forall i, (i < 10)%nat ->
                      nth_error vol i = None \/ nth_error vol i = Some None) /\
                   (forall v, In (Some v) vol -> (0 <= v)%R)).
  { intros Hvol. split; [|split].
    - erewrite other_volatility_length by eassumption. apply length_map.
    - intros i H10; eapply other_volatility_blank; eassumption.
    - intros v Hv; eapply other_volatility_nonneg; eassumption. }
  unfold volatility.
  destruct (mapM numeric_cell (map cell_price df)) as [column|e]; [|exact Hother].
  destruct (mapM numeric_cell (map cell_price sorted)) as [prices|e] eqn:Hp;
    simpl; [|discriminate].
  destruct (all_some prices) as [ps|] eqn:Hall; [|exact Hother].
  intros H; inversion H; subst vol; clear H.
  pose proof (mapM_length _ _ Hp) as Hlen; rewrite length_map in Hlen.
  rewrite (all_some_inv _ Hall), length_map in Hlen.
  split; [rewrite numeric_volatility_length; exact Hlen|].
  split.
  - intros i H10. destruct (Nat.lt_ge_cases i (length ps)) as [Hi | Hi].
    + right; apply numeric_volatility_blank; [exact Hi|].
      apply rolling_vol_first_ten; [exact H10|rewrite length_map; exact Hi].
    + left; apply nth_error_None. rewrite numeric_volatility_length; exact Hi.
  - intros v Hv. destruct (In_nth_error _ _ Hv) as [i Hi].
    assert (Hlt : (i < length ps)%nat).
    { rewrite <- (numeric_volatility_length ps). apply nth_error_Some; congruence. }
    rewrite (numeric_volatility_nth _ Hlt) in Hi. inversion Hi as [Hi']; clear Hi.
    destruct (nth i (rolling_vol (pct_change (map Some ps))) None) as [w|] eqn:Hw;
      [|discriminate].
    destruct (returns_defined (pct_change (map Some ps)) i).
    + inversion Hi'; subst w. exact (rolling_vol_nonneg _ _ (nth_some_error _ _ Hw)).
    + exact (tail_volatility_nonneg _ _ Hi').
Qed.

Lemma in_combine_nth {A B : Type} (a : list A) (b : list B) (x : A) (y : B) :
  In (x, y) (combine a b) -> exists i, nth_error b i = Some y /\ (i < length a)%nat.
Proof.
  revert b; induction a as [|x0 a IH]; intros [|y0 b] H; simpl in H; try contradiction.
  destruct H as [H | H].
  - inversion H; subst. exists 0%nat; simpl; split; [reflexivity|lia].
  - destruct (IH _ H) as [i [Hi Hlt]]. exists (S i); simpl; split; [exact Hi|lia].
Qed.

Lemma combine_nth_error {A B : Type} (a : list A) (b : list B) (i : nat) (x : A) (y : B) :
  nth_error a i = Some x -> nth_error b i = Some y ->
  nth_error (combine a b) i = Some (x, y).
Proof.
  revert b i; induction a as [|x0 a IH]; intros [|y0 b] [|i] Ha Hb;
    simpl in *; try discriminate.
  - congruence.
  - apply IH; assumption.
Qed.

Lemma btc_prices_nonzero : Forall (fun p => Qnum p <> 0) btc_prices.
Proof. repeat constructor; discriminate. Qed.

Lemma twelve_captures_served :
  chart (lib := reference_library) (Some (file_of twelve_captures)) "btc"
  = Served {| title := "BTC Volatility";
              points := combine (map cell_time
                                     (selected (lib := reference_library)
                                               twelve_frame "btc"))
                                (rolling_vol (pct_change (map Some btc_prices))) |}.
Proof.
  assert (Hcol : exists col,
             mapM numeric_cell (map cell_price twelve_frame) = Return col)
    by (eexists; vm_compute; reflexivity).
  destruct Hcol as [col Hcol].
  assert (Hps : mapM numeric_cell
                     (map cell_price (selected (lib := reference_library)
                                               twelve_frame "btc"))
                = Return (map Some btc_prices)) by (vm_compute; reflexivity).
  assert (Hne : filter (matches (lib := reference_library) "btc") twelve_frame <> [])
    by (vm_compute; discriminate).
  exact (@chart_served reference_library _ _ _ _ _ twelve_file_frame Hne Hcol Hps
           btc_prices_nonzero).
Qed.

(** X8.  A plotted volatility is never negative: every point of a served
    chart is undefined or holds a number that is at least 0. *)
Theorem plotted_volatility_is_never_negative {lib : library} {laws : lawful lib}
        (file : option (list line)) (symbol : string) (fig : figure)
        (t : cell) (v : R) :
  chart file symbol = Served fig ->
  In (t, Some v) (points fig) ->
  (0 <= v)%R.
Proof.
  intros Hchart Hin. destruct file as [content|]; [|discriminate].
  destruct (read_csv content) as [df| | |] eqn:Hread.
  - destruct (@chart_served_inv _ _ _ _ _ Hread Hchart) as (vol & Hvol & Hpts).
    rewrite Hpts in Hin. apply in_combine_r in Hin.
    exact (proj2 (proj2 (volatility_series _ _ Hvol)) _ Hin).
  - unfold chart in Hchart; rewrite Hread in Hchart; discriminate.
  - unfold chart in Hchart; rewrite Hread in Hchart; discriminate.
  - unfold chart in Hchart; rewrite Hread in Hchart.
    eapply other_chart_nonneg; eassumption.
Qed.

Lemma plotted_volatility_is_never_negative_witness :
  exists fig t v,
    chart (lib := reference_library) (Some (file_of twelve_captures)) "btc" = Served fig /\
    In (t, Some v) (points fig) /\
    (0 <= v)%R.
Proof.
  eexists; eexists; eexists.
  split; [exact twelve_captures_served|].
  assert (Hin : In (Text "2024-03-09 14:10:00",
                    Some (std (map (return_at btc_prices) (seq (10 - 9) 10)) * sqrt 252)%R)
                   (combine (map cell_time
                                 (selected (lib := reference_library) twelve_frame "btc"))
                            (rolling_vol (pct_change (map Some btc_prices))))).
  { apply (nth_error_In _ 10). apply combine_nth_error.
    - vm_compute; reflexivity.
    - apply rolling_vol_defined; [exact btc_prices_nonzero|simpl; lia]. }
  split; [exact Hin|].
  exact (@plotted_volatility_is_never_negative reference_library reference_lawful
           _ "btc" _ _ _ twelve_captures_served Hin).
Defined.

Lemma chart_points_count {lib : library} {laws : lawful lib}
      (content : list line) (df : list frame_row) (symbol : string) (fig : figure) :
  read_csv content = Frame df ->
  chart (Some content) symbol = Served fig ->
  length (points fig) = length (filter (matches symbol) df).
Proof.
  intros Hread Hchart.
  destruct (@chart_served_inv _ _ _ _ _ Hread Hchart) as (vol & Hvol & Hpts).
  destruct (volatility_series _ _ Hvol) as (Hlen & _).
  rewrite Hpts, length_combine, length_map, Hlen, Nat.min_id.
  apply selected_length.
Qed.

(** X9.  A served chart has one point per stored row of the symbol, and
    a chart of ten points or fewer is blank: none of its points has a
    defined volatility, whatever the prices.  Eleven rows of a symbol
    are needed before the chart shows anything. *)
Theorem chart_of_ten_points_or_fewer_is_blank {lib : library} {laws : lawful lib}
        (content : list line) (df : list frame_row) (symbol : string) (fig : figure) :
  read_csv content = Frame df ->
  chart (Some content) symbol = Served fig ->
  length (points fig) = length (filter (matches symbol) df) /\
  ((length (points fig) <= 10)%nat ->
   forall t v, In (t, v) (points fig) -> v = None).
Proof.
  intros Hread Hchart.
  split; [exact (@chart_points_count _ _ _ _ _ _ Hread Hchart)|].
  destruct (@chart_served_inv _ _ _ _ _ Hread Hchart) as (vol & Hvol & Hpts).
  destruct (volatility_series _ _ Hvol) as (Hsame & Hblank & _).
  intros Hlen t v Hin.
  rewrite Hpts, length_combine, length_map, Hsame, Nat.min_id in Hlen.
  rewrite Hpts in Hin. destruct (in_combine_nth _ _ _ _ Hin) as [i [Hi Hlt]].
  rewrite length_map in Hlt.
  destruct (Hblank i) as [H | H]; [lia| |]; congruence.
Qed.

Lemma chart_of_ten_points_or_fewer_is_blank_witness :
  exists fig,
    read_csv (lib := reference_library) (file_of sample_rows) = Frame sample_frame /\
    chart (lib := reference_library) (Some (file_of sample_rows)) "eth" = Served fig /\
    length (points fig) = 2%nat /\
    forall t v, In (t, v) (points fig) -> v = None.
Proof.
  assert (Hcol : exists col,
             mapM numeric_cell (map cell_price sample_frame) = Return col)
    by (eexists; vm_compute; reflexivity).
  destruct Hcol as [col Hcol].
  assert (Hps : exists prices,
             mapM numeric_cell
                  (map cell_price (selected (lib := reference_library) sample_frame "eth"))
             = Return prices) by (eexists; vm_compute; reflexivity).
  destruct Hps as [prices Hps].
  assert (Hall : exists ps, all_some prices = Some ps).
  { assert (E : Return prices
                = mapM numeric_cell
                       (map cell_price
                            (selected (lib := reference_library) sample_frame "eth")))
      by (symmetry; exact Hps).
    vm_compute in E. inversion E. eexists; reflexivity. }
  destruct Hall as [ps Hall].
  assert (Hne : filter (matches (lib := reference_library) "eth") sample_frame <> [])
    by (vm_compute; discriminate).
  pose proof (@chart_served_numeric reference_library _ _ _ _ _ _ sample_file_frame
                Hne Hcol Hps Hall) as Hchart.
  destruct (@chart_of_ten_points_or_fewer_is_blank reference_library reference_lawful
              (file_of sample_rows) sample_frame "eth" _ sample_file_frame Hchart)
    as [Hlen Hblank].
  assert (H2 : length (filter (matches (lib := reference_library) "eth") sample_frame)
               = 2%nat) by reflexivity.
  eexists. split; [exact sample_file_frame|]. split; [exact Hchart|].
  split; [rewrite Hlen; exact H2|].
  apply Hblank. rewrite Hlen, H2. repeat constructor.
Defined.










(** ** Volatility and the scale of the prices *)

Lemma Qsum_ext (xs ys : list Q) : Forall2 Qeq xs ys -> (Qsum xs == Qsum ys)%Q.
Proof.
  induction 1 as [|x y xs ys Hxy _ IH]; simpl; [reflexivity|].
  rewrite Hxy, IH; reflexivity.
Qed.

Lemma mean_ext (xs ys : list Q) : Forall2 Qeq xs ys -> (mean xs == mean ys)%Q.
Proof.
  intros H. unfold mean.
  rewrite (Qsum_ext H), (Forall2_length H). reflexivity.
Qed.

Lemma squares_ext (xs ys : list Q) (m m' : Q) :
  (m == m')%Q -> Forall2 Qeq xs ys ->
  Forall2 Qeq (map (fun x => (x - m) * (x - m))%Q xs)
              (map (fun y => (y - m') * (y - m'))%Q ys).
Proof.
  intros Hm; induction 1 as [|x y xs ys Hxy _ IH]; simpl; constructor; [|exact IH].
  rewrite Hxy, Hm; reflexivity.
Qed.

Lemma sample_var_ext (xs ys : list Q) :
  Forall2 Qeq xs ys -> (sample_var xs == sample_var ys)%Q.
Proof.
  intros H. unfold sample_var.
  rewrite (Qsum_ext (squares_ext (mean_ext H) H)), (Forall2_length H).
  reflexivity.
Qed.

Lemma std_ext (xs ys : list Q) : Forall2 Qeq xs ys -> std xs = std ys.
Proof.
  intros H; unfold std. rewrite (Qeq_eqR _ _ (sample_var_ext H)); reflexivity.
Qed.

Lemma Forall2_map_seq (f g : nat -> Q) (start len : nat) :
  (forall j, (start <= j < start + len)%nat -> (f j == g j)%Q) ->
  Forall2 Qeq (map f (seq start len)) (map g (seq start len)).
Proof.
  revert start; induction len as [|len IH]; intros start H; simpl; constructor.
  - apply H; lia.
  - apply IH; intros j Hj; apply H; lia.
Qed.

Lemma nonzero_not_zero (q : Q) : Qnum q <> 0 -> ~ (q == 0)%Q.
Proof. unfold Qeq; simpl; intros H E; apply H; lia. Qed.

Lemma nth_nonzero (ps : list Q) (j : nat) :
  Forall (fun p => Qnum p <> 0) ps -> (j < length ps)%nat -> ~ (nth j ps 0 == 0)%Q.
Proof.
  intros Hall Hj. apply nonzero_not_zero.
  rewrite Forall_forall in Hall. apply Hall, nth_In, Hj.
Qed.

Lemma nth_scaled (k : Q) (ps : list Q) (j : nat) :
  (j < length ps)%nat -> nth j (map (Qmult k) ps) 0%Q = (k * nth j ps 0)%Q.
Proof.
  intros Hj.
  rewrite (nth_indep _ 0%Q (k * 0)%Q) by (rewrite length_map; exact Hj).
  apply (map_nth (Qmult k)).
Qed.

Lemma return_at_scaled (k : Q) (ps : list Q) (j : nat) :
  ~ (k == 0)%Q -> Forall (fun p => Qnum p <> 0) ps -> (1 <= j < length ps)%nat ->
  (return_at (map (Qmult k) ps) j == return_at ps j)%Q.
Proof.
  intros Hk Hall Hj. unfold return_at.
  rewrite !nth_scaled by lia.
  pose proof (@nth_nonzero ps (j - 1) Hall ltac:(lia)) as Hprev.
  field. split; assumption.
Qed.

Lemma scaled_nonzero (k : Q) (ps : list Q) :
  ~ (k == 0)%Q -> Forall (fun p => Qnum p <> 0) ps ->
  Forall (fun p => Qnum p <> 0) (map (Qmult k) ps).
Proof.
  intros Hk Hall. apply Forall_map. eapply Forall_impl; [|exact Hall].
  intros p Hp; simpl. intros E. apply Z.mul_eq_0 in E. destruct E as [E | E].
  - apply Hk. unfold Qeq; simpl; lia.
  - contradiction.
Qed.

(** X11.  The volatility series does not depend on the unit of the
    prices: multiplying every price of a series of non-zero prices by
    the same non-zero factor gives the same series (in the exact
    arithmetic of the model). *)
Theorem volatility_ignores_price_scale (k : Q) (ps : list Q) :
  ~ (k == 0)%Q ->
  Forall (fun p => Qnum p <> 0) ps ->
  rolling_vol (pct_change (map Some (map (Qmult k) ps)))
  = rolling_vol (pct_change (map Some ps)).
Proof.
  intros Hk Hall. apply nth_error_ext; intros i.
  pose proof (scaled_nonzero Hk Hall) as Hall'.
  destruct (Nat.lt_ge_cases i (length ps)) as [Hlt | Hge].
  - destruct (Nat.lt_ge_cases i 10) as [H10 | H10].
    + rewrite !rolling_vol_first_ten by (rewrite ?length_map; assumption).
      reflexivity.
    + rewrite (rolling_vol_defined Hall') by (rewrite length_map; lia).
      rewrite (rolling_vol_defined Hall) by lia.
      do 3 f_equal. apply std_ext, Forall2_map_seq.
      intros j Hj. apply return_at_scaled; [assumption|assumption|lia].
  - assert (H1 : nth_error (rolling_vol (pct_change (map Some (map (Qmult k) ps)))) i = None)
      by (apply nth_error_None;
          rewrite rolling_vol_length, pct_change_length, !length_map; exact Hge).
    assert (H2 : nth_error (rolling_vol (pct_change (map Some ps))) i = None)
      by (apply nth_error_None;
          rewrite rolling_vol_length, pct_change_length, length_map; exact Hge).
    congruence.
Qed.

Lemma volatility_ignores_price_scale_witness :
  ~ (100 == 0)%Q /\
  Forall (fun p => Qnum p <> 0) btc_prices /\
  rolling_vol (pct_change (map Some (map (Qmult 100) btc_prices)))
  = rolling_vol (pct_change (map Some btc_prices)).
Proof.
  assert (Hk : ~ (100 == 0)%Q) by discriminate.
  split; [exact Hk|]. split; [exact btc_prices_nonzero|].
  exact (@volatility_ignores_price_scale 100 btc_prices Hk btc_prices_nonzero).
Defined.

Lemma doubling_prices_nonzero : Forall (fun p => Qnum p <> 0) doubling_prices.
Proof. repeat constructor; discriminate. Qed.

Lemma doubling_prices_double :
  forall j, (1 <= j < length doubling_prices)%nat ->
    (nth j doubling_prices 0 == 2 * nth (j - 1) doubling_prices 0)%Q.
Proof.
  intros j Hj.
  do 12 (destruct j as [|j]; [try lia; vm_compute; reflexivity|]).
  simpl in Hj; lia.
Qed.

(** X12.  A price that grows by the same factor at every step, a flat
    price in particular, has volatility 0 at every position from 10 on
    (in the exact arithmetic of the model). *)
Theorem steady_growth_has_zero_volatility (g : Q) (ps : list Q) (i : nat) :
  Forall (fun p => Qnum p <> 0) ps ->
  (forall j, (1 <= j < length ps)%nat -> (nth j ps 0 == g * nth (j - 1) ps 0)%Q) ->
  (10 <= i < length ps)%nat ->
  nth_error (rolling_vol (pct_change (map Some ps))) i = Some (Some 0%R).
Proof.
  intros Hall Hgrow Hi.
  rewrite (rolling_vol_defined Hall Hi). do 2 f_equal.
  assert (Hsame : Forall2 Qeq (map (return_at ps) (seq (i - 9) 10))
                              (map (fun _ => g - 1)%Q (seq (i - 9) 10))).
  { apply Forall2_map_seq. intros j Hj. unfold return_at.
    rewrite (Hgrow j) by lia.
    pose proof (@nth_nonzero ps (j - 1) Hall ltac:(lia)) as Hprev.
    field. exact Hprev. }
  rewrite (std_ext Hsame).
  unfold std.
  replace (Q2R (sample_var (map (fun _ => g - 1)%Q (seq (i - 9) 10)))) with 0%R.
  - rewrite sqrt_0. apply Rmult_0_l.
  - symmetry. rewrite <- RMicromega.Q2R_0. apply Qeq_eqR.
    unfold sample_var, mean; simpl. field.
Qed.

Lemma steady_growth_has_zero_volatility_witness :
  Forall (fun p => Qnum p <> 0) doubling_prices /\
  nth_error (rolling_vol (pct_change (map Some doubling_prices))) 11 = Some (Some 0%R).
Proof.
  split; [exact doubling_prices_nonzero|].
  apply (@steady_growth_has_zero_volatility 2 doubling_prices 11
           doubling_prices_nonzero doubling_prices_double).
  simpl; lia.
Defined.

(** ** Malformed points of the seven-day feed *)

Lemma mapM_one_raises {A B : Type} (f : A -> result B) (l : list A) (a : A) (e0 : exn) :
  In a l -> f a = Raise e0 -> exists e, mapM f l = Raise e.
Proof.
  induction l as [|x l IH]; intros Hin Ha; [destruct Hin|].
  simpl. destruct (f x) as [b|e] eqn:Hx; simpl; [|eauto].
  destruct Hin as [-> | Hin]; [congruence|].
  destruct (IH Hin Ha) as [e He]. rewrite He; simpl; eauto.
Qed.

(** X13.  One malformed point fails the whole seven-day feed: when any
    element of [prices] makes the conversion raise, [btc_history] raises
    and answers no partial list.  A point with a single element and a
    point whose price is null are such elements.  A body without the
    key [prices] answers the empty list, as a failed request does, and a
    body that is a list raises [AttributeError]. *)
Theorem one_malformed_point_fails_the_feed {lib : library}
        (d : list (string * pyval)) (prices : list pyval) (p : pyval) (e0 : exn) :
  dict_lookup d "prices" = Some (PyList prices) ->
  In p prices ->
  clean_point p = Raise e0 ->
  (exists e, btc_history (Json (PyDict d)) = Raise e) /\
  (forall t, exists e, clean_point (PyList [t]) = Raise e) /\
  (forall t rest, exists e, clean_point (PyList (t :: PyNone :: rest)) = Raise e) /\
  (forall d', dict_lookup d' "prices" = None ->
              btc_history (Json (PyDict d')) = Return []) /\
  (forall l, btc_history (Json (PyList l)) = Raise AttributeError).
Proof.
  intros Hprices Hin Hbad. split; [|split; [|split; [|split]]].
  - unfold btc_history; cbn [request_json].
    rewrite dict_get_lookup, Hprices; cbn [py_iter bind].
    exact (mapM_one_raises _ _ _ Hin Hbad).
  - intros t. unfold clean_point; cbn [subscript nth_error bind].
    destruct (to_datetime_date t); simpl; eauto.
  - intros t rest. unfold clean_point; cbn [subscript nth_error bind].
    destruct (to_datetime_date t); simpl; eauto.
  - intros d' Hnone. unfold btc_history; cbn [request_json].
    rewrite dict_get_lookup, Hnone. reflexivity.
  - reflexivity.
Qed.

Lemma one_malformed_point_fails_the_feed_witness :
  dict_lookup short_point_feed "prices"
  = Some (PyList [ raw_point (1700000000000, binary64 (42567 # 1000));
                   PyList [PyInt 1700086400000] ]) /\
  clean_point (lib := reference_library) (PyList [PyInt 1700086400000])
  = Raise IndexError /\
  exists e, btc_history (lib := reference_library) (Json (PyDict short_point_feed))
            = Raise e.
Proof.
  split; [reflexivity|]. split; [reflexivity|].
  apply (@one_malformed_point_fails_the_feed reference_library short_point_feed _
           (PyList [PyInt 1700086400000]) IndexError eq_refl).
  - right; left; reflexivity.
  - reflexivity.
Defined.

(** ** The views after a first capture of no asset *)

Lemma first_row_names_no_time (r : row) :
  row_time r <> "time" ->
  row_symbol r <> "time" ->
  (forall v, In v [row_name r; row_price r; row_change r; row_volume r] ->
             v <> PyStr "time") ->
  names_column "time" (DataLine r) = false.
Proof.
  intros Htime Hsymbol Hcells.
  assert (Hcell : forall v, In v [row_name r; row_price r; row_change r; row_volume r] ->
                            text_is "time" v = false).
  { intros v Hv. destruct v; try reflexivity. simpl.
    apply String.eqb_neq. intros E; subst. exact (Hcells _ Hv eq_refl). }
  unfold names_column.
  apply String.eqb_neq in Htime, Hsymbol. rewrite Htime, Hsymbol.
  rewrite !Hcell by (simpl; auto). reflexivity.
Qed.

Lemma read_csv_headerless (r : row) (rest : list row) {lib : library} :
  names_column "time" (DataLine r) = false ->
  read_csv (Header [] :: map DataLine (r :: rest)) = NoTimeColumn.
Proof.
  intros Hnames. unfold read_csv.
  cbn [filter is_blank negb]. rewrite filter_not_blank.
  cbn [map]. rewrite Hnames. reflexivity.
Qed.

(** X17.  When the first capture that creates the history file lists no
    asset, the rows that later captures append follow a line without
    column names, and the first of these rows is read as the line of
    names.  Unless one of its cells is the text "time", the file then
    has no column [time]: for every symbol [chart] raises [ValueError]
    (the column named in [parse_dates] is missing) and [ppt] raises
    [KeyError], neither a 404 nor a chart or a report, and this for as
    long as the file is kept. *)
Theorem views_fail_after_empty_first_capture {lib : library}
        (events : list event) (clock : datetime) (st : state)
        (r : row) (rest : list row) :
  CSV_FILE st = None ->
  concat (appended events) = r :: rest ->
  row_time r <> "time" ->
  row_symbol r <> "time" ->
  (forall v, In v [row_name r; row_price r; row_change r; row_volume r] ->
             v <> PyStr "time") ->
  CSV_FILE (run (mkEvent (Json (PyList [])) Writes clock :: events) st)
  = Some (Header [] :: map DataLine (r :: rest)) /\
  (forall symbol,
     chart (CSV_FILE (run (mkEvent (Json (PyList [])) Writes clock :: events) st)) symbol
     = Failed ValueError) /\
  ppt (CSV_FILE (run (mkEvent (Json (PyList [])) Writes clock :: events) st))
  = Failed KeyError.
Proof.
  intros Hnone Hrows Htime Hsymbol Hcells.
  pose proof (first_row_names_no_time r Htime Hsymbol Hcells) as Hnames.
  assert (Hfile : CSV_FILE (run (mkEvent (Json (PyList [])) Writes clock :: events) st)
                  = Some (Header [] :: map DataLine (r :: rest))).
  { cbn [run ev_upstream ev_disk ev_clock].
    rewrite run_file.
    unfold fetch_crypto_data, build_rows; simpl. rewrite Hnone; simpl.
    rewrite Hrows. reflexivity. }
  rewrite Hfile. split; [reflexivity|].
  unfold chart, ppt. rewrite (read_csv_headerless r rest Hnames).
  split; reflexivity.
Qed.

Lemma views_fail_after_empty_first_capture_witness :
  exists r rest,
    concat (appended (lib := reference_library) sample_events) = r :: rest /\
    row_time r = "2024-03-09 14:05:30" /\
    chart (lib := reference_library)
          (CSV_FILE (run (lib := reference_library) empty_first_events (mkState [] None)))
          "btc"
    = Failed ValueError /\
    ppt (lib := reference_library)
        (CSV_FILE (run (lib := reference_library) empty_first_events (mkState [] None)))
    = Failed KeyError.
Proof.
  eexists; eexists.
  split; [vm_compute; reflexivity|]. split; [reflexivity|].
  refine (let H := @views_fail_after_empty_first_capture reference_library sample_events
                     (mkDatetime 2024 3 9 14 5 0) (mkState [] None) _ _
                     eq_refl eq_refl _ _ _ in
          conj (proj1 (proj2 H) "btc") (proj2 (proj2 H))).
  - discriminate.
  - discriminate.
  - intros v Hv. simpl in Hv.
    each_member Hv ltac:(discriminate).
Defined.

(** ** The case of the symbol *)

(** X7.  The chart of a symbol depends on the symbol only up to the case
    of its letters: on a store that is read as a frame, two ASCII
    spellings of a symbol that differ by case get the same answer, the
    same title, the same points or the same failure. *)
Theorem chart_ignores_case_of_symbol {lib : library} {laws : lawful lib}
        (content : list line) (df : list frame_row) (symbol symbol' : string) :
  read_csv content = Frame df ->
  is_ascii symbol = true -> is_ascii symbol' = true ->
  eq_nocase symbol symbol' = true ->
  chart (Some content) symbol' = chart (Some content) symbol.
Proof.
  intros Hread Ha Hb Heq.
  assert (Hup : str_upper symbol' = str_upper symbol).
  { rewrite eq_nocase_upper in Heq. apply String.eqb_eq in Heq.
    rewrite (str_upper_ascii symbol Ha), (str_upper_ascii symbol' Hb), Heq.
    reflexivity. }
  assert (Hfilter : filter (matches symbol') df = filter (matches symbol) df).
  { apply filter_ext_in_rows; intros r _. unfold matches. rewrite Hup. reflexivity. }
  unfold chart. rewrite Hread, Hfilter, Hup. reflexivity.
Qed.

Lemma chart_ignores_case_of_symbol_witness :
  read_csv (lib := reference_library) (file_of twelve_captures) = Frame twelve_frame /\
  eq_nocase "btc" "bTC" = true /\
  chart (lib := reference_library) (Some (file_of twelve_captures)) "bTC"
  = chart (lib := reference_library) (Some (file_of twelve_captures)) "btc" /\
  exists fig,
    chart (lib := reference_library) (Some (file_of twelve_captures)) "bTC" = Served fig /\
    title fig = "BTC Volatility".
Proof.
  split; [exact twelve_file_frame|]. split; [reflexivity|].
  pose proof (@chart_ignores_case_of_symbol reference_library reference_lawful
                (file_of twelve_captures) twelve_frame "btc" "bTC" twelve_file_frame
                eq_refl eq_refl eq_refl) as H.
  split; [exact H|].
  eexists. split; [rewrite H; exact twelve_captures_served|reflexivity].
Defined.
